(** * CanvasAI AI service ([ai/main.py]): a shallow embedding of the handlers

    The service is a FastAPI application with five POST handlers.  Each
    handler is a [try] block that logs, computes a response from the typed
    request, and on any exception logs the error and raises
    [HTTPException(status_code=500, detail=str(e))].

    The embedding keeps that shape: handler bodies run in a small
    log-and-exception monad, [try_except] is the [except Exception] clause,
    Python's built-ins ([split], [strip], slicing, [range], [str]) and
    [base64] are modelled as executable functions, floats are binary64
    primitive floats, and Pillow is an interface ([ImageLib]). *)

From Stdlib Require Import ZArith NArith List String Ascii Bool Lia ZifyNat.
From Stdlib Require Import DecimalString.
From Stdlib Require Import Floats.PrimFloat Numbers.Cyclic.Int63.Uint63.
Import ListNotations.

Set Warnings "-inexact-float,-register-all".
Local Open Scope string_scope.

(** ** Python built-ins used by the handlers *)

Module Py.

(** [str] values are strings of 8-bit characters; [bytes] are byte lists. *)
Definition bytes := list Byte.byte.

(** The double-quote character, and a one-character string of it. *)
Definition dquote_char : ascii := ascii_of_nat 34.
Definition dq : string := String dquote_char EmptyString.
Definition nl : string := String (ascii_of_nat 10) EmptyString.

(** [str(i)] and [f"{i}"] for an [int]. *)
Definition str_of_int (i : Z) : string := NilZero.string_of_int (Z.to_int i).

(** [len(l)] as a Python int. *)
Definition len {A} (l : list A) : Z := Z.of_nat (List.length l).

(** [range(n)]: [0, 1, ..., n-1], empty when [n <= 0]. *)
Definition range (n : Z) : list Z := map Z.of_nat (seq 0 (Z.to_nat n)).

(** [l[:k]]: a non-negative stop keeps the first [k] items, a negative
    stop counts from the end ([len(l) + k], floored at 0). *)
Definition slice_to {A} (l : list A) (k : Z) : list A :=
  if (k <? 0)%Z then firstn (Z.to_nat (Z.max 0 (len l + k))) l
  else firstn (Z.to_nat k) l.

(** [c in s] for a one-character [c]. *)
Fixpoint contains_char (c : ascii) (s : string) : bool :=
  match s with
  | EmptyString => false
  | String d s' => Ascii.eqb d c || contains_char c s'
  end.

(** [s.split(sep)] for a one-character separator: cuts at every
    occurrence; the result is never empty. *)
Fixpoint split (sep : ascii) (s : string) : list string :=
  match s with
  | EmptyString => [EmptyString]
  | String c s' =>
      if Ascii.eqb c sep then EmptyString :: split sep s'
      else match split sep s' with
           | p :: ps => String c p :: ps
           | [] => [String c EmptyString]
           end
  end.

(** Whitespace as [str.strip()] sees it among the first 256 code points:
    TAB, LF, VT, FF, CR, FS, GS, RS, US, SPACE, NEL and NBSP. *)
Definition is_space (c : ascii) : bool :=
  let n := nat_of_ascii c in
  ((9 <=? n)%nat && (n <=? 13)%nat) || ((28 <=? n)%nat && (n <=? 32)%nat)
  || (n =? 133)%nat || (n =? 160)%nat.

Fixpoint lstrip (s : string) : string :=
  match s with
  | EmptyString => EmptyString
  | String c s' => if is_space c then lstrip s' else s
  end.

Fixpoint rstrip (s : string) : string :=
  match s with
  | EmptyString => EmptyString
  | String c s' =>
      match rstrip s' with
      | EmptyString => if is_space c then EmptyString else String c EmptyString
      | r => String c r
      end
  end.

(** [s.strip()] *)
Definition strip (s : string) : string := rstrip (lstrip s).

(** [sub in s] for strings. *)
Fixpoint substringb (sub s : string) : bool :=
  String.prefix sub s ||
  match s with
  | EmptyString => false
  | String _ s' => substringb sub s'
  end.

(** Concatenation of the pieces of an f-string. *)
Fixpoint fstring (parts : list string) : string :=
  match parts with
  | [] => EmptyString
  | p :: ps => p ++ fstring ps
  end.

End Py.

(** ** Exceptions, logging and the handler monad *)

(** An exception carries its class name and the text [str(e)] returns. *)
Record Exception := mkException { exc_class : string; exc_str : string }.

Inductive LogLevel := INFO | ERROR.
Definition LogRecord : Type := LogLevel * string.

(** A handler body: the log records it emitted, and either the raised
    exception or the returned value. *)
Definition M (A : Type) : Type := list LogRecord * (Exception + A).

Definition ret {A} (a : A) : M A := ([], inr a).
Definition bind {A B} (m : M A) (k : A -> M B) : M B :=
  match m with
  | (lg, inl e) => (lg, inl e)
  | (lg, inr a) => let '(lg', r) := k a in (List.app lg lg', r)
  end.
Definition logger_info (msg : string) : M unit := ([(INFO, msg)], inr tt).
(** A library call that returns or raises, without logging. *)
Definition lift {A} (r : Exception + A) : M A := ([], r).

Notation "x <- m ;; k" := (bind m (fun x => k))
  (at level 61, m at next level, right associativity).
Notation "m ;;; k" := (bind m (fun _ => k))
  (at level 61, right associativity).

(** What the client receives: the response body, or the HTTP error raised
    by the [except] clause. *)
Inductive HTTPResult (A : Type) : Type :=
| Ok (body : A)
| HTTPException (status_code : Z) (detail : string).
Arguments Ok {A} body.
Arguments HTTPException {A} status_code detail.

(** [try: body  except Exception as e: logger.error(f"{label}{str(e)}");
    raise HTTPException(status_code=500, detail=str(e))]. *)
Definition try_except {A} (label : string) (body : M A)
  : list LogRecord * HTTPResult A :=
  match body with
  | (lg, inr a) => (lg, Ok a)
  | (lg, inl e) =>
      (List.app lg [(ERROR, label ++ exc_str e)],
       HTTPException 500 (exc_str e))
  end.

Definition response {A} (r : list LogRecord * HTTPResult A) : HTTPResult A :=
  snd r.
Definition log {A} (r : list LogRecord * HTTPResult A) : list LogRecord :=
  fst r.

(** ** [base64]: the standard library's codec

    [b64decode(s)] with a [str] argument encodes it to ASCII (a [ValueError]
    when a character is outside ASCII) and calls [binascii.a2b_base64] in its
    default, non-strict mode: characters outside the alphabet are skipped,
    a completed pad sequence ends the input, and leftover characters of an
    unfinished quad are an error.  [b64encode] is RFC 4648 with padding. *)

Module Base64.
Import Py.
Local Open Scope N_scope.

Definition alphabet : string :=
  "ABCDEFGHIJKLMNOPQRSTUVWXYZabcdefghijklmnopqrstuvwxyz0123456789+/".

Definition pad : ascii := ascii_of_nat 61.

Definition table_b2a (n : N) : ascii :=
  match String.get (N.to_nat n) alphabet with
  | Some c => c
  | None => pad
  end.

Definition table_a2b (c : ascii) : option N :=
  let n := N_of_ascii c in
  if (65 <=? n) && (n <=? 90) then Some (n - 65)
  else if (97 <=? n) && (n <=? 122) then Some (n - 71)
  else if (48 <=? n) && (n <=? 57) then Some (n + 4)
  else if n =? 43 then Some 62
  else if n =? 47 then Some 63
  else None.

(** The value stored through an [unsigned char *]. *)
Definition to_byte (n : N) : Byte.byte :=
  match Byte.of_N (n mod 256) with
  | Some b => b
  | None => Byte.x00
  end.

Definition binascii_Error (msg : string) : Exception :=
  mkException "binascii.Error" msg.

(** The decoding loop of [a2b_base64]: [quad_pos] is the position inside
    the current group of four characters, [leftchar] the bits not yet
    written, [pads] the pad characters seen since the last data character,
    [bin] the bytes written so far. *)
Fixpoint a2b_loop (s : string) (quad_pos : nat) (leftchar : N) (pads : nat)
         (bin : bytes) : Exception + bytes :=
  match s with
  | EmptyString =>
      match quad_pos with
      | O => inr bin
      | S O =>
          inl (binascii_Error
                 (fstring
                    ["Invalid base64-encoded string: number of data characters (";
                     str_of_int (len bin / 3 * 4 + 1);
                     ") cannot be 1 more than a multiple of 4"]))
      | _ => inl (binascii_Error "Incorrect padding")
      end
  | String c s' =>
      if Ascii.eqb c pad then
        if (2 <=? quad_pos)%nat then
          if (4 <=? quad_pos + S pads)%nat then inr bin
          else a2b_loop s' quad_pos leftchar (S pads) bin
        else a2b_loop s' quad_pos leftchar pads bin
      else
        match table_a2b c with
        | None => a2b_loop s' quad_pos leftchar pads bin
        | Some this_ch =>
            match quad_pos with
            | 0%nat => a2b_loop s' 1 this_ch 0 bin
            | 1%nat =>
                a2b_loop s' 2 (N.land this_ch 15) 0
                  (List.app bin
                     [to_byte (N.lor (N.shiftl leftchar 2) (N.shiftr this_ch 4))])
            | 2%nat =>
                a2b_loop s' 3 (N.land this_ch 3) 0
                  (List.app bin
                     [to_byte (N.lor (N.shiftl leftchar 4) (N.shiftr this_ch 2))])
            | _ =>
                a2b_loop s' 0 0 0
                  (List.app bin [to_byte (N.lor (N.shiftl leftchar 6) this_ch)])
            end
        end
  end.

Fixpoint is_ascii (s : string) : bool :=
  match s with
  | EmptyString => true
  | String c s' => (N_of_ascii c <? 128) && is_ascii s'
  end.

(** [base64.b64decode(s)] for a [str] argument. *)
Definition b64decode (s : string) : Exception + bytes :=
  if is_ascii s then a2b_loop s 0 0 0 []
  else inl (mkException "ValueError"
              "string argument should contain only ASCII characters").

Definition sextet (n : N) : string := String (table_b2a n) EmptyString.

(** [base64.b64encode(bs).decode()] *)
Fixpoint b64encode (bs : bytes) : string :=
  match bs with
  | [] => EmptyString
  | [a] =>
      let a := Byte.to_N a in
      fstring [sextet (N.shiftr a 2); sextet (N.shiftl (N.land a 3) 4);
               String pad (String pad EmptyString)]
  | [a; b] =>
      let a := Byte.to_N a in
      let b := Byte.to_N b in
      fstring [sextet (N.shiftr a 2);
               sextet (N.lor (N.shiftl (N.land a 3) 4) (N.shiftr b 4));
               sextet (N.shiftl (N.land b 15) 2);
               String pad EmptyString]
  | a :: b :: c :: rest =>
      let a := Byte.to_N a in
      let b := Byte.to_N b in
      let c := Byte.to_N c in
      String (table_b2a (N.shiftr a 2))
        (String (table_b2a (N.lor (N.shiftl (N.land a 3) 4) (N.shiftr b 4)))
           (String (table_b2a (N.lor (N.shiftl (N.land b 15) 2) (N.shiftr c 6)))
              (String (table_b2a (N.land c 63)) (b64encode rest))))
  end.

End Base64.

(** ** Pillow, as the handlers use it *)

(** [Image.open(io.BytesIO(data))], the [width] and [height] attributes, and
    [image.save(buffer, format='PNG')] followed by [buffer.getvalue()].
    Opening and saving can raise. *)
Class ImageLib := {
  Image : Type;
  Image_open : Py.bytes -> Exception + Image;
  Image_width : Image -> Z;
  Image_height : Image -> Z;
  Image_save_png : Image -> Exception + Py.bytes
}.

(** A header-only image format, three bytes: the mode (0 for RGB, 1 for
    CMYK), the width and the height.  It stands in for Pillow when a handler
    is evaluated on a concrete request; like Pillow's PNG writer it refuses
    CMYK images. *)
Inductive HeaderMode := RGB | CMYK.

Record HeaderImage := {
  header_mode : HeaderMode;
  header_width : Byte.byte;
  header_height : Byte.byte
}.

Definition HeaderImage_open (data : Py.bytes) : Exception + HeaderImage :=
  match data with
  | [Byte.x00; w; h] =>
      inr {| header_mode := RGB; header_width := w; header_height := h |}
  | [Byte.x01; w; h] =>
      inr {| header_mode := CMYK; header_width := w; header_height := h |}
  | _ => inl (mkException "UnidentifiedImageError" "cannot identify image file")
  end.

Definition HeaderImage_save_png (im : HeaderImage) : Exception + Py.bytes :=
  match header_mode im with
  | RGB => inr [Byte.x00; header_width im; header_height im]
  | CMYK => inl (mkException "OSError" "cannot write mode CMYK as PNG")
  end.

Definition HeaderImageLib : ImageLib := {|
  Image := HeaderImage;
  Image_open := HeaderImage_open;
  Image_width := fun im => Z.of_N (Byte.to_N (header_width im));
  Image_height := fun im => Z.of_N (Byte.to_N (header_height im));
  Image_save_png := HeaderImage_save_png
|}.

(** ** JSON-like values: the dict and list literals the handlers build *)

Inductive PyValue :=
| PNone
| PInt (i : Z)
| PFloat (f : float)
| PStr (s : string)
| PList (items : list PyValue)
| PDict (items : list (string * PyValue)).

(** [d[key]] on a dict literal (first binding of the key). *)
Fixpoint assoc (key : string) (items : list (string * PyValue)) : option PyValue :=
  match items with
  | [] => None
  | (k, v) :: rest => if String.eqb k key then Some v else assoc key rest
  end.

Definition getitem (v : PyValue) (key : string) : option PyValue :=
  match v with
  | PDict items => assoc key items
  | _ => None
  end.

(** [float(i)] for an [int] in the exactly representable range. *)
Definition float_of_int (i : Z) : float :=
  if (i <? 0)%Z then PrimFloat.opp (PrimFloat.of_uint63 (Uint63.of_Z (- i)))
  else PrimFloat.of_uint63 (Uint63.of_Z i).

(** ** Request and response models (the [BaseModel] classes) *)

Module GenerateLayoutRequest.
Record t := { prompt : string; width : Z; height : Z; style : option string }.
(** [width: int = 800], [height: int = 600], [style = "modern"]. *)
Definition with_defaults (prompt : string) : t :=
  {| prompt := prompt; width := 800; height := 600; style := Some "modern" |}.
End GenerateLayoutRequest.

Module GenerateLayoutResponse.
Record t := { scene_graph : PyValue; preview_image : option string }.
End GenerateLayoutResponse.

Module TraceImageRequest.
Record t := { image_data : string }.
End TraceImageRequest.

Module TraceImageResponse.
Record t := { svg_content : string; confidence : float }.
End TraceImageResponse.

Module GeneratePaletteRequest.
Record t := { image_data : option string; base_color : option string; count : Z }.
End GeneratePaletteRequest.

Module GeneratePaletteResponse.
Record t := { colors : list string; harmony_type : string }.
End GeneratePaletteResponse.

Module InpaintRequest.
Record t := { image_data : string; mask_data : string; prompt : string }.
End InpaintRequest.

Module InpaintResponse.
Record t := { image_data : string }.
End InpaintResponse.

(** ** The handlers *)

Definition comma : ascii := ascii_of_nat 44.

(** [l[i]]: an [IndexError] outside the list. *)
Definition list_index {A} (l : list A) (i : nat) : Exception + A :=
  match nth_error l i with
  | Some x => inr x
  | None => inl (mkException "IndexError" "list index out of range")
  end.

(** [data.split(',')[1] if ',' in data else data]: the argument handed to
    [base64.b64decode] at lines 130, 192 and 193. *)
Definition b64_argument (data : string) : Exception + string :=
  if Py.contains_char comma data then list_index (Py.split comma data) 1
  else inr data.

(** [base64.b64decode(data.split(',')[1] if ',' in data else data)] *)
Definition decode_data (data : string) : Exception + Py.bytes :=
  match b64_argument data with
  | inl e => inl e
  | inr arg => Base64.b64decode arg
  end.

(** Truthiness of an [Optional[str]]: [None] and the empty string are falsy. *)
Definition truthy (s : option string) : bool :=
  match s with
  | Some (String _ _) => true
  | _ => false
  end.

(** [POST /ai/layout] *)
Definition generate_layout (request : GenerateLayoutRequest.t)
  : list LogRecord * HTTPResult GenerateLayoutResponse.t :=
  try_except "Error generating layout: "
    (logger_info ("Generating layout for prompt: "
                  ++ GenerateLayoutRequest.prompt request) ;;;
     let scene_graph :=
       PDict
         [("artboard",
           PDict [("id", PStr "artboard-1");
                  ("width", PInt (GenerateLayoutRequest.width request));
                  ("height", PInt (GenerateLayoutRequest.height request));
                  ("backgroundColor", PStr "#FFFFFF")]);
          ("elements",
           PList
             [PDict [("id", PStr "text-1");
                     ("type", PStr "text");
                     ("content",
                      PStr ("Generated from: "
                            ++ GenerateLayoutRequest.prompt request));
                     ("position", PDict [("x", PInt 50); ("y", PInt 50)]);
                     ("style",
                      PDict [("fontSize", PInt 24);
                             ("fontFamily", PStr "Inter");
                             ("color", PStr "#333333")])];
              PDict [("id", PStr "rect-1");
                     ("type", PStr "rectangle");
                     ("position", PDict [("x", PInt 50); ("y", PInt 100)]);
                     ("size", PDict [("width", PInt 200); ("height", PInt 100)]);
                     ("style",
                      PDict [("fill", PStr "#3B82F6");
                             ("stroke", PStr "none")])]])]
     in
     ret {| GenerateLayoutResponse.scene_graph := scene_graph;
            GenerateLayoutResponse.preview_image := None |}).

(** [name="value"] inside the SVG template. *)
Definition attr (name value : string) : string :=
  Py.fstring [name; "="; Py.dq; value; Py.dq].

(** The f-string of lines 135-144, for an image of width [w] and height [h]. *)
Definition svg_template (w h : Z) : string :=
  Py.fstring
    [Py.nl;
     "        <svg "; attr "width" (Py.str_of_int w); " ";
     attr "height" (Py.str_of_int h); " ";
     attr "xmlns" "http://www.w3.org/2000/svg"; ">"; Py.nl;
     "            <rect "; attr "x" "10"; " "; attr "y" "10"; " ";
     attr "width" (Py.str_of_int (w - 20)); " ";
     attr "height" (Py.str_of_int (h - 20)); " "; Py.nl;
     "                  "; attr "fill" "none"; " ";
     attr "stroke" "#000000"; " "; attr "stroke-width" "2"; "/>"; Py.nl;
     "            <text "; attr "x" (Py.str_of_int (w / 2)); " ";
     attr "y" (Py.str_of_int (h / 2)); " "; Py.nl;
     "                  "; attr "text-anchor" "middle"; " ";
     attr "font-family" "Arial"; " "; attr "font-size" "16"; ">"; Py.nl;
     "                Traced Image"; Py.nl;
     "            </text>"; Py.nl;
     "        </svg>"; Py.nl;
     "        "].

Section WithImageLib.
Context {PIL : ImageLib}.

(** [POST /ai/trace] *)
Definition trace_image (request : TraceImageRequest.t)
  : list LogRecord * HTTPResult TraceImageResponse.t :=
  try_except "Error tracing image: "
    (logger_info "Tracing image to SVG" ;;;
     image_data <- lift (decode_data (TraceImageRequest.image_data request)) ;;
     image <- lift (Image_open image_data) ;;
     let svg_content := svg_template (Image_width image) (Image_height image) in
     ret {| TraceImageResponse.svg_content := Py.strip svg_content;
            TraceImageResponse.confidence := 0.85%float |}).

(** [POST /ai/inpaint] *)
Definition inpaint_image (request : InpaintRequest.t)
  : list LogRecord * HTTPResult InpaintResponse.t :=
  try_except "Error inpainting image: "
    (logger_info ("Inpainting image with prompt: "
                  ++ InpaintRequest.prompt request) ;;;
     image_data <- lift (decode_data (InpaintRequest.image_data request)) ;;
     mask_data <- lift (decode_data (InpaintRequest.mask_data request)) ;;
     image <- lift (Image_open image_data) ;;
     buffer <- lift (Image_save_png image) ;;
     let image_base64 := Base64.b64encode buffer in
     ret {| InpaintResponse.image_data :=
              "data:image/png;base64," ++ image_base64 |}).

End WithImageLib.

(** [POST /ai/palette] *)
Definition generate_palette (request : GeneratePaletteRequest.t)
  : list LogRecord * HTTPResult GeneratePaletteResponse.t :=
  try_except "Error generating palette: "
    (logger_info "Generating color palette" ;;;
     let base_color :=
       if truthy (GeneratePaletteRequest.base_color request)
       then GeneratePaletteRequest.base_color request
       else Some "#3B82F6" in
     let colors := ["#3B82F6"; "#1E40AF"; "#93C5FD"; "#F59E0B"; "#6B7280"] in
     ret {| GeneratePaletteResponse.colors :=
              Py.slice_to colors (GeneratePaletteRequest.count request);
            GeneratePaletteResponse.harmony_type := "complementary" |}).

(** One entry of the list comprehension of [search_assets]. *)
Definition search_result (i : Z) : PyValue :=
  PDict [("id", PStr ("asset-" ++ Py.str_of_int i));
         ("url", PStr ("https://picsum.photos/200/200?random=" ++ Py.str_of_int i));
         ("title", PStr ("Sample Asset " ++ Py.str_of_int i));
         ("tags", PList [PStr "sample"; PStr "image"]);
         ("relevance", PFloat (0.9 - (float_of_int i * 0.1))%float)].

(** [POST /ai/search], with [query] and [limit] as query parameters. *)
Definition search_assets (query : string) (limit : Z)
  : list LogRecord * HTTPResult PyValue :=
  try_except "Error searching assets: "
    (logger_info ("Searching assets for: " ++ query) ;;;
     let results := map search_result (Py.range (Z.min limit 5)) in
     ret (PDict [("results", PList results); ("total", PInt (Py.len results))])).

(** The default of [limit: int = 10]. *)
Definition search_assets_default (query : string) := search_assets query 10.

(** ** Observations used to state the properties *)

(** The palette the specification lists. *)
Definition fixed_colors : list string :=
  ["#3B82F6"; "#1E40AF"; "#93C5FD"; "#F59E0B"; "#6B7280"].

(** The [results] and [total] entries of a search response. *)
Definition search_results (r : HTTPResult PyValue) : option (list PyValue) :=
  match r with
  | Ok body =>
      match getitem body "results" with
      | Some (PList l) => Some l
      | _ => None
      end
  | HTTPException _ _ => None
  end.

Definition search_total (r : HTTPResult PyValue) : option Z :=
  match r with
  | Ok body =>
      match getitem body "total" with
      | Some (PInt n) => Some n
      | _ => None
      end
  | HTTPException _ _ => None
  end.

(** The part of [s] after its first [sep] (empty when there is none), and
    the part before it (all of [s] when there is none). *)
Fixpoint after_first (sep : ascii) (s : string) : string :=
  match s with
  | EmptyString => EmptyString
  | String c s' => if Ascii.eqb c sep then s' else after_first sep s'
  end.

Fixpoint before_first (sep : ascii) (s : string) : string :=
  match s with
  | EmptyString => EmptyString
  | String c s' =>
      if Ascii.eqb c sep then EmptyString else String c (before_first sep s')
  end.

(** Writing an image as PNG and opening the result keeps its size. *)
Definition png_preserves_size (PIL : ImageLib) : Prop :=
  forall (im : Image) (png : Py.bytes),
    Image_save_png im = inr png ->
    exists im', Image_open png = inr im' /\
                Image_width im' = Image_width im /\
                Image_height im' = Image_height im.

(** The SVG document of a trace response: the template without the
    whitespace around it. *)
Definition svg_document (w h : Z) : string :=
  Py.fstring
    ["<svg "; attr "width" (Py.str_of_int w); " ";
     attr "height" (Py.str_of_int h); " ";
     attr "xmlns" "http://www.w3.org/2000/svg"; ">"; Py.nl;
     "            <rect "; attr "x" "10"; " "; attr "y" "10"; " ";
     attr "width" (Py.str_of_int (w - 20)); " ";
     attr "height" (Py.str_of_int (h - 20)); " "; Py.nl;
     "                  "; attr "fill" "none"; " ";
     attr "stroke" "#000000"; " "; attr "stroke-width" "2"; "/>"; Py.nl;
     "            <text "; attr "x" (Py.str_of_int (w / 2)); " ";
     attr "y" (Py.str_of_int (h / 2)); " "; Py.nl;
     "                  "; attr "text-anchor" "middle"; " ";
     attr "font-family" "Arial"; " "; attr "font-size" "16"; ">"; Py.nl;
     "                Traced Image"; Py.nl;
     "            </text>"; Py.nl;
     "        </svg>"].

(** ** Checks on the base64 tables and on the regrouping of bits

    Boolean checks that are run over every sextet and every pair of bytes. *)

Module Base64Checks.
Import Base64.
Local Open Scope N_scope.

(** Checking a decidable property on every number below a bound. *)
Definition below (k : nat) : list N := map N.of_nat (seq 0 k).

(** A sextet's character decodes back to it, is neither the pad nor a comma,
    and is ASCII. *)
Definition sextet_ok (n : N) : bool :=
  match table_a2b (table_b2a n) with
  | Some m => m =? n
  | None => false
  end
  && negb (Ascii.eqb (table_b2a n) pad)
  && negb (Ascii.eqb (table_b2a n) comma)
  && (N_of_ascii (table_b2a n) <? 128).

(** The four sextets of a group of three bytes. *)
Definition s0 (a : N) : N := N.shiftr a 2.
Definition s1 (a b : N) : N := N.lor (N.shiftl (N.land a 3) 4) (N.shiftr b 4).
Definition s2 (b c : N) : N := N.lor (N.shiftl (N.land b 15) 2) (N.shiftr c 6).
Definition s3 (c : N) : N := N.land c 63.

(** What the decoder writes from them, and the bits it carries over. *)
Definition regroup_ok (x y : N) : bool :=
  (s0 x <? 64) && (s1 x y <? 64) && (s2 x y <? 64) && (s3 x <? 64)
  && (N.shiftl (N.land x 3) 4 <? 64) && (N.shiftl (N.land x 15) 2 <? 64)
  && (N.lor (N.shiftl (s0 x) 2) (N.shiftr (s1 x y) 4) =? x)
  && (N.lor (N.shiftl (s0 x) 2) (N.shiftr (N.shiftl (N.land x 3) 4) 4) =? x)
  && (N.land (s1 x y) 15 =? N.shiftr y 4)
  && (N.lor (N.shiftl (N.shiftr x 4) 4) (N.shiftr (s2 x y) 2) =? x)
  && (N.lor (N.shiftl (N.shiftr x 4) 4)
        (N.shiftr (N.shiftl (N.land x 15) 2) 2) =? x)
  && (N.land (s2 x y) 3 =? N.shiftr y 6)
  && (N.lor (N.shiftl (N.shiftr x 6) 6) (s3 x) =? x).

End Base64Checks.

(** ** Observations on lists of results and colours *)

(** [l1] is an initial segment of [l2]. *)
Definition is_prefix_of {A} (l1 l2 : list A) : Prop :=
  exists rest, l2 = List.app l1 rest.

(** The colours of a palette answer (none on failure). *)
Definition palette_colors (r : HTTPResult GeneratePaletteResponse.t)
  : list string :=
  match r with
  | Ok resp => GeneratePaletteResponse.colors resp
  | HTTPException _ _ => []
  end.

(** The [relevance] entry of a search result. *)
Definition result_relevance (r : PyValue) : option float :=
  match getitem r "relevance" with
  | Some (PFloat f) => Some f
  | _ => None
  end.

(** The limit as the search handler uses it: capped at 5, and no result
    below 1. *)
Definition effective_limit (limit : Z) : Z := Z.max 0 (Z.min limit 5).

(** The border rectangle and the caption position inside the SVG document,
    as the template writes them. *)
Definition svg_rect (w h : Z) : string :=
  Py.fstring
    ["<rect "; attr "x" "10"; " "; attr "y" "10"; " ";
     attr "width" (Py.str_of_int (w - 20)); " ";
     attr "height" (Py.str_of_int (h - 20))].

Definition svg_text_position (w h : Z) : string :=
  Py.fstring
    ["<text "; attr "x" (Py.str_of_int (w / 2)); " ";
     attr "y" (Py.str_of_int (h / 2))].

(** ** The expected answers, spelled out

    These are written from the documented behaviour, character by
    character, without any of the helpers the handlers are built from. *)

(** A double quote, and an integer in decimal. *)
Definition quote_mark : string := String "034"%char EmptyString.
Definition decimal (i : Z) : string := NilZero.string_of_int (Z.to_int i).

(** [width="w"] and [height="h"]. *)
Definition width_attribute (w : Z) : string :=
  "width=" ++ quote_mark ++ decimal w ++ quote_mark.
Definition height_attribute (h : Z) : string :=
  "height=" ++ quote_mark ++ decimal h ++ quote_mark.

(** [<rect x="10" y="10" width="w-20" height="h-20"] and
    [<text x="w//2" y="h//2"]. *)
Definition rect_tag (w h : Z) : string :=
  "<rect x=" ++ quote_mark ++ "10" ++ quote_mark
  ++ " y=" ++ quote_mark ++ "10" ++ quote_mark
  ++ " width=" ++ quote_mark ++ decimal (w - 20) ++ quote_mark
  ++ " height=" ++ quote_mark ++ decimal (h - 20) ++ quote_mark.

Definition text_tag (w h : Z) : string :=
  "<text x=" ++ quote_mark ++ decimal (w / 2) ++ quote_mark
  ++ " y=" ++ quote_mark ++ decimal (h / 2) ++ quote_mark.

(** The search result at the position written [index], with its relevance. *)
Definition expected_result (index : string) (relevance : float) : PyValue :=
  PDict [("id", PStr ("asset-" ++ index));
         ("url", PStr ("https://picsum.photos/200/200?random=" ++ index));
         ("title", PStr ("Sample Asset " ++ index));
         ("tags", PList [PStr "sample"; PStr "image"]);
         ("relevance", PFloat relevance)].

(** The five results a search can return, relevance [0.9 - 0.1*i]. *)
Definition expected_results : list PyValue :=
  [expected_result "0" (0.9 - 0.1 * 0)%float;
   expected_result "1" (0.9 - 0.1 * 1)%float;
   expected_result "2" (0.9 - 0.1 * 2)%float;
   expected_result "3" (0.9 - 0.1 * 3)%float;
   expected_result "4" (0.9 - 0.1 * 4)%float].

(** The relevance values along a list of results. *)
Definition relevances (results : list PyValue) : list (option float) :=
  map result_relevance results.

(** *** Response schemas *)










(** *** Malformed base64 *)





(** * Properties *)

(** ** Lists, slices and ranges *)

Module PyFacts.
Import Py.

Lemma firstn_beyond {A} (l : list A) (n : nat) :
  (List.length l <= n)%nat -> firstn n l = l.
Proof.
  revert n; induction l as [|x l IH]; intros [|n] Hn; simpl in *;
    try reflexivity; try lia.
  f_equal; apply IH; lia.
Qed.

Lemma firstn_cap {A} (l : list A) (n : nat) :
  firstn n l = firstn (Nat.min n (List.length l)) l.
Proof.
  destruct (Nat.le_gt_cases n (List.length l)) as [H|H].
  - now rewrite Nat.min_l.
  - rewrite Nat.min_r by lia.
    rewrite !firstn_beyond; auto; lia.
Qed.

Lemma slice_to_nonneg {A} (l : list A) (k : Z) :
  (0 <= k)%Z -> slice_to l k = firstn (Z.to_nat (Z.min k (len l))) l.
Proof.
  intros Hk; unfold slice_to, len.
  destruct (Z.ltb_spec k 0); [lia|].
  rewrite firstn_cap; f_equal; lia.
Qed.

Lemma slice_to_neg {A} (l : list A) (k : Z) :
  (k < 0)%Z -> slice_to l k = firstn (Z.to_nat (Z.max 0 (len l + k))) l.
Proof.
  intros Hk; unfold slice_to.
  destruct (Z.ltb_spec k 0); [reflexivity|lia].
Qed.

Lemma len_firstn {A} (l : list A) (n : nat) :
  (n <= List.length l)%nat -> len (firstn n l) = Z.of_nat n.
Proof.
  intros H; unfold len; rewrite length_firstn; lia.
Qed.

Lemma range_length (n : Z) : List.length (range n) = Z.to_nat n.
Proof. unfold range; now rewrite length_map, length_seq. Qed.

Lemma range_nonpos (n : Z) : (n <= 0)%Z -> range n = [].
Proof.
  intros H; unfold range.
  replace (Z.to_nat n) with 0%nat by lia; reflexivity.
Qed.

Lemma range_nth (n : Z) (i : nat) :
  (i < Z.to_nat n)%nat -> nth_error (range n) i = Some (Z.of_nat i).
Proof.
  intros H; unfold range.
  rewrite nth_error_map, nth_error_seq.
  destruct (Nat.ltb_spec i (Z.to_nat n)); [reflexivity|lia].
Qed.

Lemma len_map_range {B} (f : Z -> B) (n : Z) :
  len (map f (range n)) = Z.max 0 n.
Proof. unfold len; rewrite length_map, range_length; lia. Qed.

End PyFacts.

(** ** [POST /ai/palette] *)

Lemma generate_palette_response (request : GeneratePaletteRequest.t) :
  response (generate_palette request) =
  Ok {| GeneratePaletteResponse.colors :=
          Py.slice_to fixed_colors (GeneratePaletteRequest.count request);
        GeneratePaletteResponse.harmony_type := "complementary" |}.
Proof. reflexivity. Qed.

(** C2: with [count = c >= 0] the palette handler answers with the first
    [min(c, 5)] entries of the fixed list, so its length is [min(c, 5)], and
    asking for more than five colours gives exactly the five. *)
Theorem palette_count_nonneg (request : GeneratePaletteRequest.t) :
  (0 <= GeneratePaletteRequest.count request)%Z ->
  exists resp,
    response (generate_palette request) = Ok resp /\
    GeneratePaletteResponse.colors resp =
      firstn (Z.to_nat (Z.min (GeneratePaletteRequest.count request) 5))
        fixed_colors /\
    Py.len (GeneratePaletteResponse.colors resp) =
      Z.min (GeneratePaletteRequest.count request) 5 /\
    ((5 < GeneratePaletteRequest.count request)%Z ->
     GeneratePaletteResponse.colors resp = fixed_colors).
Proof.
  intros Hc. eexists. split; [apply generate_palette_response|]. simpl.
  rewrite PyFacts.slice_to_nonneg by assumption.
  change (Py.len fixed_colors) with 5%Z.
  split; [reflexivity|]. split.
  - rewrite PyFacts.len_firstn; [lia|]. simpl; lia.
  - intros H5. apply PyFacts.firstn_beyond. simpl; lia.
Qed.

Lemma palette_count_nonneg_witness :
  exists resp,
    response (generate_palette
                {| GeneratePaletteRequest.image_data := None;
                   GeneratePaletteRequest.base_color := Some "#FF0000";
                   GeneratePaletteRequest.count := 3 |}) = Ok resp /\
    GeneratePaletteResponse.colors resp = ["#3B82F6"; "#1E40AF"; "#93C5FD"].
Proof.
  destruct (palette_count_nonneg
              {| GeneratePaletteRequest.image_data := None;
                 GeneratePaletteRequest.base_color := Some "#FF0000";
                 GeneratePaletteRequest.count := 3 |})
    as [resp [H1 [H2 _]]]; [simpl; lia|].
  exists resp; split; [exact H1|exact H2].
Defined.

(** C9: with a negative [count = c] the palette handler still succeeds and
    answers with the first [max(0, 5 + c)] entries of the fixed list: four
    colours for [-1], none from [-5] down. *)
Theorem palette_count_negative (request : GeneratePaletteRequest.t) :
  (GeneratePaletteRequest.count request < 0)%Z ->
  exists resp,
    response (generate_palette request) = Ok resp /\
    GeneratePaletteResponse.colors resp =
      firstn (Z.to_nat (Z.max 0 (5 + GeneratePaletteRequest.count request)))
        fixed_colors /\
    (GeneratePaletteRequest.count request = (-1)%Z ->
     GeneratePaletteResponse.colors resp =
       ["#3B82F6"; "#1E40AF"; "#93C5FD"; "#F59E0B"]) /\
    ((GeneratePaletteRequest.count request <= -5)%Z ->
     GeneratePaletteResponse.colors resp = []).
Proof.
  intros Hc. eexists. split; [apply generate_palette_response|]. simpl.
  rewrite PyFacts.slice_to_neg by assumption.
  change (Py.len fixed_colors) with 5%Z.
  split; [reflexivity|]. split.
  - intros ->. reflexivity.
  - intros H5.
    replace (Z.to_nat (Z.max 0 (5 + GeneratePaletteRequest.count request)))
      with 0%nat by lia.
    reflexivity.
Qed.

Lemma palette_count_negative_witness :
  exists resp,
    response (generate_palette
                {| GeneratePaletteRequest.image_data := None;
                   GeneratePaletteRequest.base_color := None;
                   GeneratePaletteRequest.count := -2 |}) = Ok resp /\
    GeneratePaletteResponse.colors resp = ["#3B82F6"; "#1E40AF"; "#93C5FD"].
Proof.
  destruct (palette_count_negative
              {| GeneratePaletteRequest.image_data := None;
                 GeneratePaletteRequest.base_color := None;
                 GeneratePaletteRequest.count := -2 |})
    as [resp [H1 [H2 _]]]; [simpl; lia|].
  exists resp; split; [exact H1|exact H2].
Defined.

(** C7: two palette requests with the same [count] get the same answer
    (response and log records alike), whatever their [base_color] and
    [image_data]; and [harmony_type] is always ["complementary"]. *)
Theorem palette_noninterference (r1 r2 : GeneratePaletteRequest.t) :
  GeneratePaletteRequest.count r1 = GeneratePaletteRequest.count r2 ->
  generate_palette r1 = generate_palette r2 /\
  exists resp,
    response (generate_palette r1) = Ok resp /\
    GeneratePaletteResponse.harmony_type resp = "complementary".
Proof.
  intros Hc. split.
  - unfold generate_palette. simpl. now rewrite Hc.
  - eexists. split; [apply generate_palette_response|reflexivity].
Qed.

Lemma palette_noninterference_witness :
  generate_palette
    {| GeneratePaletteRequest.image_data := Some "data:image/png;base64,AAAA";
       GeneratePaletteRequest.base_color := Some "#FF0000";
       GeneratePaletteRequest.count := 4 |} =
  generate_palette
    {| GeneratePaletteRequest.image_data := None;
       GeneratePaletteRequest.base_color := None;
       GeneratePaletteRequest.count := 4 |}.
Proof.
  apply (palette_noninterference
           {| GeneratePaletteRequest.image_data := Some "data:image/png;base64,AAAA";
              GeneratePaletteRequest.base_color := Some "#FF0000";
              GeneratePaletteRequest.count := 4 |}
           {| GeneratePaletteRequest.image_data := None;
              GeneratePaletteRequest.base_color := None;
              GeneratePaletteRequest.count := 4 |}).
  reflexivity.
Defined.

(** ** [POST /ai/search] *)

Lemma search_assets_response (query : string) (limit : Z) :
  response (search_assets query limit) =
  Ok (PDict [("results", PList (map search_result (Py.range (Z.min limit 5))));
             ("total",
              PInt (Py.len (map search_result (Py.range (Z.min limit 5)))))]).
Proof. reflexivity. Qed.

(** Whatever the limit, the results are the first ones of the five
    expected results. *)
Lemma search_results_firstn (query : string) (limit : Z) :
  search_results (response (search_assets query limit))
  = Some (firstn (Z.to_nat (Z.min limit 5)) expected_results).
Proof.
  rewrite search_assets_response. simpl search_results. f_equal.
  unfold Py.range.
  assert (H : (Z.to_nat (Z.min limit 5) <= 5)%nat) by lia.
  destruct (Z.to_nat (Z.min limit 5)) as [|[|[|[|[|[|k]]]]]]; try lia;
    vm_compute; reflexivity.
Qed.

Lemma expected_results_length (n : nat) :
  (n <= 5)%nat -> List.length (firstn n expected_results) = n.
Proof. intros H. rewrite length_firstn. simpl. lia. Qed.

Lemma expected_relevances_decreasing (n i j : nat) (ri rj : float) :
  (i < j)%nat ->
  nth_error (relevances (firstn n expected_results)) i = Some (Some ri) ->
  nth_error (relevances (firstn n expected_results)) j = Some (Some rj) ->
  PrimFloat.ltb rj ri = true.
Proof.
  intros Hij Hi Hj.
  assert (Hlt : (j < 5)%nat).
  { assert (H : (j < List.length (relevances (firstn n expected_results)))%nat)
      by (apply nth_error_Some; rewrite Hj; discriminate).
    unfold relevances in H. rewrite length_map, length_firstn in H.
    simpl in H. lia. }
  rewrite (PyFacts.firstn_cap expected_results n) in Hi, Hj.
  change (List.length expected_results) with 5%nat in Hi, Hj.
  assert (H5 : (Nat.min n 5 <= 5)%nat) by lia.
  revert Hi Hj H5. generalize (Nat.min n 5). intros m Hi Hj H5.
  destruct m as [|[|[|[|[|[|k]]]]]]; try lia;
    destruct j as [|[|[|[|[|j]]]]]; try lia;
    destruct i as [|[|[|[|i]]]]; try lia;
    vm_compute in Hi; vm_compute in Hj; try discriminate;
    (injection Hi as <-; injection Hj as <-; vm_compute; reflexivity).
Qed.

(** C1, as the code has it: a search with [limit = l] produces
    [max(0, min(l, 5))] results, which is [min(l, 5)] whenever [l >= 0];
    they are the first ones of the five expected results, so the result at
    position [i] has id ["asset-i"], url
    ["https://picsum.photos/200/200?random=i"], title ["Sample Asset i"],
    tags [["sample", "image"]] and relevance [0.9 - 0.1*i]; and relevance
    strictly decreases along the list. *)
Theorem search_results_generated (query : string) (limit : Z) :
  exists results,
    search_results (response (search_assets query limit)) = Some results /\
    Z.of_nat (List.length results) = Z.max 0 (Z.min limit 5) /\
    ((0 <= limit)%Z -> Z.of_nat (List.length results) = Z.min limit 5) /\
    results = firstn (List.length results) expected_results /\
    (forall i j ri rj,
        (i < j)%nat ->
        nth_error (relevances results) i = Some (Some ri) ->
        nth_error (relevances results) j = Some (Some rj) ->
        PrimFloat.ltb rj ri = true).
Proof.
  exists (firstn (Z.to_nat (Z.min limit 5)) expected_results).
  split; [apply search_results_firstn|].
  rewrite expected_results_length by lia.
  split; [lia|]. split; [lia|]. split; [reflexivity|].
  intros i j ri rj. apply expected_relevances_decreasing.
Qed.

Lemma search_results_generated_witness :
  exists results,
    search_results (response (search_assets "logo" 2)) = Some results /\
    Z.of_nat (List.length results) = 2%Z /\
    results =
    [PDict [("id", PStr "asset-0");
            ("url", PStr "https://picsum.photos/200/200?random=0");
            ("title", PStr "Sample Asset 0");
            ("tags", PList [PStr "sample"; PStr "image"]);
            ("relevance", PFloat (0.9 - 0.1 * 0)%float)];
     PDict [("id", PStr "asset-1");
            ("url", PStr "https://picsum.photos/200/200?random=1");
            ("title", PStr "Sample Asset 1");
            ("tags", PList [PStr "sample"; PStr "image"]);
            ("relevance", PFloat (0.9 - 0.1 * 1)%float)]] /\
    PrimFloat.ltb (0.9 - 0.1 * 1)%float (0.9 - 0.1 * 0)%float = true.
Proof.
  destruct (search_results_generated "logo" 2)
    as [results [H1 [_ [H2 [H3 H4]]]]].
  assert (Hlen : Z.of_nat (List.length results) = 2%Z) by (apply H2; lia).
  assert (Hn : List.length results = 2%nat) by lia.
  rewrite Hn in H3.
  exists results. split; [exact H1|]. split; [exact Hlen|].
  split; [exact H3|].
  apply (H4 0%nat 1%nat); [lia| |]; rewrite H3; reflexivity.
Defined.

(** C1 as stated fails for a negative limit: no result is generated, while
    [min(-1, 5)] is [-1]. *)
Lemma search_count_negative_limit :
  search_results (response (search_assets "logo" (-1))) = Some [] /\
  Py.len (@nil PyValue) <> Z.min (-1) 5.
Proof. split; [reflexivity|]. vm_compute. discriminate. Qed.

(** C10: the [total] of a search response is the number of items in its
    [results], for every limit; a negative limit gives no result and a
    total of 0. *)
Theorem search_total_is_length (query : string) (limit : Z) :
  exists results total,
    search_results (response (search_assets query limit)) = Some results /\
    search_total (response (search_assets query limit)) = Some total /\
    total = Z.of_nat (List.length results) /\
    ((limit < 0)%Z -> results = [] /\ total = 0%Z).
Proof.
  exists (map search_result (Py.range (Z.min limit 5))).
  eexists. rewrite search_assets_response. simpl.
  split; [reflexivity|]. split; [reflexivity|]. split; [reflexivity|].
  intros Hl. rewrite PyFacts.range_nonpos by lia. split; reflexivity.
Qed.

Lemma search_total_is_length_witness :
  (exists results total,
      search_results (response (search_assets "logo" 3)) = Some results /\
      search_total (response (search_assets "logo" 3)) = Some total /\
      List.length results = 3%nat /\ total = 3%Z) /\
  (exists results total,
      search_results (response (search_assets "logo" (-3))) = Some results /\
      search_total (response (search_assets "logo" (-3))) = Some total /\
      results = [] /\ total = 0%Z).
Proof.
  split.
  - destruct (search_total_is_length "logo" 3)
      as [results [total [H1 [H2 [H3 _]]]]].
    exists results, total. split; [exact H1|]. split; [exact H2|].
    assert (Hlen : List.length results = 3%nat)
      by (vm_compute in H1; injection H1 as <-; reflexivity).
    split; [exact Hlen|]. rewrite H3, Hlen. reflexivity.
  - destruct (search_total_is_length "logo" (-3))
      as [results [total [H1 [H2 [_ H3]]]]].
    exists results, total. split; [exact H1|]. split; [exact H2|].
    apply H3. lia.
Defined.

Example search_three :
  search_results (response (search_assets "logo" 3))
  = Some [search_result 0; search_result 1; search_result 2]
  /\ search_total (response (search_assets "logo" 3)) = Some 3%Z.
Proof. split; reflexivity. Qed.

Example search_default_limit :
  search_total (response (search_assets_default "logo")) = Some 5%Z.
Proof. reflexivity. Qed.

Example search_first_result :
  search_result 0
  = PDict [("id", PStr "asset-0");
           ("url", PStr "https://picsum.photos/200/200?random=0");
           ("title", PStr "Sample Asset 0");
           ("tags", PList [PStr "sample"; PStr "image"]);
           ("relevance", PFloat 0.9%float)].
Proof. reflexivity. Qed.

(** ** [POST /ai/layout] *)

(** C6: the layout handler answers with a scene graph whose artboard has the
    requested width and height and whose [elements] are exactly two nodes:
    the text node ["text-1"], whose content is the prompt after
    ["Generated from: "], and the rectangle ["rect-1"]; [preview_image] is
    [None]. *)
Theorem layout_scene_graph (request : GenerateLayoutRequest.t) :
  exists resp artboard text rect,
    response (generate_layout request) = Ok resp /\
    GenerateLayoutResponse.preview_image resp = None /\
    getitem (GenerateLayoutResponse.scene_graph resp) "artboard" = Some artboard /\
    getitem artboard "width" = Some (PInt (GenerateLayoutRequest.width request)) /\
    getitem artboard "height" = Some (PInt (GenerateLayoutRequest.height request)) /\
    getitem (GenerateLayoutResponse.scene_graph resp) "elements" =
      Some (PList [text; rect]) /\
    getitem text "id" = Some (PStr "text-1") /\
    getitem text "type" = Some (PStr "text") /\
    getitem text "content" =
      Some (PStr ("Generated from: " ++ GenerateLayoutRequest.prompt request)) /\
    getitem rect "id" = Some (PStr "rect-1") /\
    getitem rect "type" = Some (PStr "rectangle").
Proof.
  unfold generate_layout. simpl.
  do 4 eexists. repeat (split; [reflexivity|]). reflexivity.
Qed.

(** ** Strings: concatenation, substrings, stripping and splitting *)

Module StrFacts.
Import Py.

Lemma append_assoc (a b c : string) : (a ++ b) ++ c = a ++ (b ++ c).
Proof. induction a as [|x a IH]; simpl; [reflexivity|now rewrite IH]. Qed.


Lemma fstring_app (l1 l2 : list string) :
  fstring (List.app l1 l2) = fstring l1 ++ fstring l2.
Proof.
  induction l1 as [|p l1 IH]; simpl; [reflexivity|].
  now rewrite IH, append_assoc.
Qed.

Lemma prefix_append (p s : string) : String.prefix p (p ++ s) = true.
Proof.
  induction p as [|x p IH]; simpl; [now destruct s|].
  destruct (ascii_dec x x); [exact IH|congruence].
Qed.

Lemma prefix_inv (p s : string) :
  String.prefix p s = true -> exists post, s = p ++ post.
Proof.
  revert s; induction p as [|x p IH]; intros s H.
  - exists s; reflexivity.
  - destruct s as [|y s]; simpl in H; [discriminate|].
    destruct (ascii_dec x y) as [->|]; [|discriminate].
    destruct (IH s H) as [post ->]. exists post; reflexivity.
Qed.

(** [substringb] decides the occurrence of [sub] inside [s]. *)
Lemma substringb_spec (sub s : string) :
  substringb sub s = true <-> exists pre post, s = pre ++ sub ++ post.
Proof.
  split.
  - induction s as [|c s IH]; intros H; cbn [substringb] in H.
    + rewrite orb_false_r in H.
      destruct (prefix_inv _ _ H) as [post Hp].
      exists EmptyString, post; exact Hp.
    + apply orb_true_iff in H as [H|H].
      * destruct (prefix_inv _ _ H) as [post Hp].
        exists EmptyString, post; exact Hp.
      * destruct (IH H) as [pre [post ->]].
        exists (String c pre), post; reflexivity.
  - intros [pre [post ->]].
    induction pre as [|c pre IH].
    + change (EmptyString ++ sub ++ post) with (sub ++ post).
      destruct (sub ++ post) eqn:E; cbn [substringb];
        rewrite <- E, prefix_append; reflexivity.
    + change (String c pre ++ sub ++ post) with (String c (pre ++ sub ++ post)).
      cbn [substringb]. rewrite IH. apply orb_true_r.
Qed.

Lemma rstrip_append (a b : string) :
  rstrip b <> EmptyString -> rstrip (a ++ b) = a ++ rstrip b.
Proof.
  intros Hb; induction a as [|x a IH]; simpl; [reflexivity|].
  rewrite IH. destruct (a ++ rstrip b) eqn:E; [|reflexivity].
  destruct a; simpl in E; [contradiction|discriminate].
Qed.

Lemma contains_char_false_split (sep : ascii) (s : string) :
  contains_char sep s = false -> split sep s = [s].
Proof.
  induction s as [|c s IH]; simpl; [reflexivity|].
  intros H. apply orb_false_iff in H as [Hc Hs].
  rewrite Hc, (IH Hs). reflexivity.
Qed.

Lemma split_nonempty (sep : ascii) (s : string) : split sep s <> [].
Proof.
  destruct s as [|c s]; simpl; [discriminate|].
  destruct (Ascii.eqb c sep); [discriminate|].
  destruct (split sep s); discriminate.
Qed.

Lemma split_head (sep : ascii) (s : string) :
  exists rest, split sep s = before_first sep s :: rest.
Proof.
  induction s as [|c s [rest IH]]; simpl; [now exists []|].
  destruct (Ascii.eqb c sep); [now eexists|].
  rewrite IH. now eexists.
Qed.

(** With a separator present, the item at index 1 of the split is the
    text between the first separator and the next one. *)
Lemma split_second (sep : ascii) (s : string) :
  contains_char sep s = true ->
  nth_error (split sep s) 1 = Some (before_first sep (after_first sep s)).
Proof.
  induction s as [|c s IH]; simpl; [discriminate|].
  destruct (Ascii.eqb c sep); simpl.
  - intros _. destruct (split_head sep s) as [rest ->]. reflexivity.
  - intros H. specialize (IH H).
    destruct (split sep s) as [|p ps]; [discriminate|exact IH].
Qed.

Lemma before_first_absent (sep : ascii) (s : string) :
  contains_char sep s = false -> before_first sep s = s.
Proof.
  induction s as [|c s IH]; simpl; [reflexivity|].
  intros H. apply orb_false_iff in H as [Hc Hs].
  rewrite Hc, (IH Hs). reflexivity.
Qed.

Lemma rstrip_append_blank (a b : string) :
  rstrip b = EmptyString -> rstrip (a ++ b) = rstrip a.
Proof.
  intros Hb; induction a as [|x a IH]; simpl; [exact Hb|].
  now rewrite IH.
Qed.

End StrFacts.

(** ** [POST /ai/trace] *)

(** The template is the document between two runs of whitespace. *)
Lemma svg_template_layout (w h : Z) :
  svg_template w h =
  (Py.nl ++ "        ") ++ svg_document w h ++ (Py.nl ++ "        ").
Proof.
  unfold svg_template, svg_document.
  change (Py.nl ++ "        ") with (Py.fstring [Py.nl; "        "]).
  rewrite <- !StrFacts.fstring_app.
  reflexivity.
Qed.

Lemma strip_svg_template (w h : Z) :
  Py.strip (svg_template w h) = svg_document w h.
Proof.
  rewrite svg_template_layout. unfold Py.strip.
  assert (Hl : Py.lstrip ((Py.nl ++ "        ") ++ svg_document w h
                          ++ (Py.nl ++ "        "))
               = svg_document w h ++ (Py.nl ++ "        ")) by reflexivity.
  rewrite Hl, StrFacts.rstrip_append_blank by reflexivity.
  unfold svg_document.
  match goal with
  | |- Py.rstrip (Py.fstring ?l) = _ =>
      change l with (List.app (removelast l) ["        </svg>"])
  end.
  rewrite StrFacts.fstring_app.
  apply StrFacts.rstrip_append. discriminate.
Qed.

Lemma trace_image_success {PIL : ImageLib} (request : TraceImageRequest.t)
      (bs : Py.bytes) (image : Image) :
  decode_data (TraceImageRequest.image_data request) = inr bs ->
  Image_open bs = inr image ->
  response (trace_image request) =
  Ok {| TraceImageResponse.svg_content :=
          svg_document (Image_width image) (Image_height image);
        TraceImageResponse.confidence := 0.85%float |}.
Proof.
  intros Hd Ho. unfold trace_image, response, try_except, bind, lift.
  simpl. rewrite Hd, Ho. simpl. now rewrite strip_svg_template.
Qed.

Lemma svg_document_width (w h : Z) :
  Py.substringb (attr "width" (Py.str_of_int w)) (svg_document w h) = true.
Proof.
  apply StrFacts.substringb_spec. unfold svg_document.
  exists "<svg ". eexists. reflexivity.
Qed.

Lemma svg_document_height (w h : Z) :
  Py.substringb (attr "height" (Py.str_of_int h)) (svg_document w h) = true.
Proof.
  apply StrFacts.substringb_spec. unfold svg_document.
  exists ("<svg " ++ attr "width" (Py.str_of_int w) ++ " "). eexists.
  cbn [Py.fstring]. rewrite !StrFacts.append_assoc. reflexivity.
Qed.

(** The attributes the template writes are the spelled-out ones. *)
Lemma svg_document_width_attribute (w h : Z) :
  Py.substringb (width_attribute w) (svg_document w h) = true.
Proof.
  change (width_attribute w) with (attr "width" (Py.str_of_int w)).
  apply svg_document_width.
Qed.

Lemma svg_document_height_attribute (w h : Z) :
  Py.substringb (height_attribute h) (svg_document w h) = true.
Proof.
  change (height_attribute h) with (attr "height" (Py.str_of_int h)).
  apply svg_document_height.
Qed.

(** C5: when the payload of a trace request decodes to an image of width
    [w] and height [h], the handler succeeds, the SVG it returns contains
    [width="w"] and [height="h"] with [w] and [h] in decimal, and the
    confidence is 0.85. *)
Theorem trace_svg_dimensions {PIL : ImageLib} (request : TraceImageRequest.t)
        (bs : Py.bytes) (image : Image) :
  decode_data (TraceImageRequest.image_data request) = inr bs ->
  Image_open bs = inr image ->
  exists resp,
    response (trace_image request) = Ok resp /\
    Py.substringb (width_attribute (Image_width image))
      (TraceImageResponse.svg_content resp) = true /\
    Py.substringb (height_attribute (Image_height image))
      (TraceImageResponse.svg_content resp) = true /\
    TraceImageResponse.confidence resp = 0.85%float.
Proof.
  intros Hd Ho. eexists. split; [apply (trace_image_success _ _ _ Hd Ho)|].
  simpl. split; [apply svg_document_width_attribute|].
  split; [apply svg_document_height_attribute|reflexivity].
Qed.

Lemma trace_svg_dimensions_witness :
  exists resp,
    response (trace_image (PIL := HeaderImageLib)
                {| TraceImageRequest.image_data := "data:image/png;base64,AGQy" |})
    = Ok resp /\
    Py.substringb
      ("width=" ++ String "034"%char ("100" ++ String "034"%char EmptyString))
      (TraceImageResponse.svg_content resp) = true /\
    Py.substringb
      ("height=" ++ String "034"%char ("50" ++ String "034"%char EmptyString))
      (TraceImageResponse.svg_content resp) = true /\
    TraceImageResponse.confidence resp = 0.85%float.
Proof.
  apply (trace_svg_dimensions (PIL := HeaderImageLib)
           {| TraceImageRequest.image_data := "data:image/png;base64,AGQy" |}
           [Byte.x00; Byte.x64; Byte.x32]
           {| header_mode := RGB; header_width := Byte.x64;
              header_height := Byte.x32 |}); reflexivity.
Defined.

(** ** The base64 payload of trace and inpaint requests *)

Lemma b64_argument_segment (data : string) :
  Py.contains_char comma data = true ->
  b64_argument data = inr (before_first comma (after_first comma data)).
Proof.
  intros H. unfold b64_argument, list_index.
  now rewrite H, (StrFacts.split_second _ _ H).
Qed.

Lemma decode_data_with_comma (data : string) :
  Py.contains_char comma data = true ->
  decode_data data =
  Base64.b64decode (before_first comma (after_first comma data)).
Proof.
  intros H. unfold decode_data. now rewrite (b64_argument_segment _ H).
Qed.

Lemma decode_data_without_comma (data : string) :
  Py.contains_char comma data = false ->
  decode_data data = Base64.b64decode data.
Proof. intros H. unfold decode_data, b64_argument. now rewrite H. Qed.

(** C4, as the code has it: when the payload contains a comma, the bytes
    decoded are the base64 decoding of the text between the first comma and
    the next one (or the end of the string); this is the whole remainder
    after the first comma when that remainder has no comma; without any
    comma the whole payload is decoded. *)
Theorem decode_data_segment (data : string) :
  (Py.contains_char comma data = true ->
   decode_data data =
   Base64.b64decode (before_first comma (after_first comma data))) /\
  (Py.contains_char comma data = true ->
   Py.contains_char comma (after_first comma data) = false ->
   decode_data data = Base64.b64decode (after_first comma data)) /\
  (Py.contains_char comma data = false ->
   decode_data data = Base64.b64decode data).
Proof.
  split; [apply decode_data_with_comma|]. split.
  - intros H1 H2. rewrite (decode_data_with_comma _ H1).
    now rewrite (StrFacts.before_first_absent _ _ H2).
  - apply decode_data_without_comma.
Qed.

Lemma decode_data_segment_witness :
  decode_data "data:image/png;base64,AAAA,BBBB" = Base64.b64decode "AAAA" /\
  decode_data "data:image/png;base64,aGVsbG8=" = Base64.b64decode "aGVsbG8=" /\
  decode_data "aGVsbG8=" = Base64.b64decode "aGVsbG8=".
Proof.
  split; [|split].
  - apply (decode_data_segment "data:image/png;base64,AAAA,BBBB"). reflexivity.
  - apply (decode_data_segment "data:image/png;base64,aGVsbG8="); reflexivity.
  - apply (decode_data_segment "aGVsbG8="). reflexivity.
Defined.

(** C4 as stated fails for a payload with a second comma: the handlers
    decode ["AAAA"] (three bytes), while the remainder after the first
    comma, ["AAAA,BBBB"], decodes to six. *)
Lemma decode_data_second_comma :
  Py.contains_char comma "data:image/png;base64,AAAA,BBBB" = true /\
  after_first comma "data:image/png;base64,AAAA,BBBB" = "AAAA,BBBB" /\
  decode_data "data:image/png;base64,AAAA,BBBB"
  = inr [Byte.x00; Byte.x00; Byte.x00] /\
  Base64.b64decode (after_first comma "data:image/png;base64,AAAA,BBBB")
  = inr [Byte.x00; Byte.x00; Byte.x00; Byte.x04; Byte.x10; Byte.x41] /\
  decode_data "data:image/png;base64,AAAA,BBBB"
  <> Base64.b64decode (after_first comma "data:image/png;base64,AAAA,BBBB").
Proof.
  repeat (split; [reflexivity|]). vm_compute. discriminate.
Qed.

Lemma before_first_no_sep (sep : ascii) (s : string) :
  Py.contains_char sep (before_first sep s) = false.
Proof.
  induction s as [|c s IH]; simpl; [reflexivity|].
  destruct (Ascii.eqb c sep) eqn:E; simpl; [reflexivity|].
  now rewrite E, IH.
Qed.

(** ** [base64]: decoding what [b64encode] produced gives the bytes back *)

Module Base64Facts.
Import Py Base64 Base64Checks.
Local Open Scope N_scope.

Lemma below_forallb (k : nat) (P : N -> bool) :
  forallb P (below k) = true -> forall n, n < N.of_nat k -> P n = true.
Proof.
  intros H n Hn. rewrite forallb_forall in H. apply H.
  unfold below. apply in_map_iff. exists (N.to_nat n).
  split; [apply N2Nat.id|]. apply in_seq. lia.
Qed.

Lemma below_forallb2 (k : nat) (P : N -> N -> bool) :
  forallb (fun a => forallb (P a) (below k)) (below k) = true ->
  forall a b, a < N.of_nat k -> b < N.of_nat k -> P a b = true.
Proof.
  intros H a b Ha Hb.
  apply (below_forallb k (P a)); [|exact Hb].
  apply (below_forallb k (fun a => forallb (P a) (below k)) H a Ha).
Qed.

Lemma sextet_ok_all (n : N) : n < 64 -> sextet_ok n = true.
Proof. apply (below_forallb 64 sextet_ok). vm_compute. reflexivity. Qed.

Lemma table_roundtrip (n : N) : n < 64 -> table_a2b (table_b2a n) = Some n.
Proof.
  intros H. pose proof (sextet_ok_all n H) as Hok. unfold sextet_ok in Hok.
  repeat (apply andb_true_iff in Hok as [Hok _]).
  destruct (table_a2b (table_b2a n)) as [m|]; [|discriminate].
  apply N.eqb_eq in Hok. now subst.
Qed.

Lemma table_not_pad (n : N) : n < 64 -> Ascii.eqb (table_b2a n) pad = false.
Proof.
  intros H. pose proof (sextet_ok_all n H) as Hok. unfold sextet_ok in Hok.
  apply andb_true_iff in Hok as [Hok _].
  apply andb_true_iff in Hok as [Hok _].
  apply andb_true_iff in Hok as [_ Hok].
  now apply negb_true_iff in Hok.
Qed.

Lemma table_not_comma (n : N) : n < 64 -> Ascii.eqb (table_b2a n) comma = false.
Proof.
  intros H. pose proof (sextet_ok_all n H) as Hok. unfold sextet_ok in Hok.
  apply andb_true_iff in Hok as [Hok _].
  apply andb_true_iff in Hok as [_ Hok].
  now apply negb_true_iff in Hok.
Qed.

Lemma table_is_ascii (n : N) : n < 64 -> (N_of_ascii (table_b2a n) <? 128) = true.
Proof.
  intros H. pose proof (sextet_ok_all n H) as Hok. unfold sextet_ok in Hok.
  now apply andb_true_iff in Hok as [_ Hok].
Qed.

Lemma regroup_ok_all (x y : N) : x < 256 -> y < 256 -> regroup_ok x y = true.
Proof. apply (below_forallb2 256 regroup_ok). vm_compute. reflexivity. Qed.

Lemma byte_lt (b : Byte.byte) : Byte.to_N b < 256.
Proof. pose proof (Byte.to_N_bounded b). lia. Qed.

Lemma to_byte_to_N (b : Byte.byte) : to_byte (Byte.to_N b) = b.
Proof.
  unfold to_byte. rewrite N.mod_small by apply byte_lt.
  now rewrite Byte.of_to_N.
Qed.

Ltac split_andb H :=
  repeat match type of H with
         | (_ && _)%bool = true =>
             let H' := fresh H in apply andb_true_iff in H as [H H']
         end.

Ltac to_props :=
  repeat match goal with
         | H : (_ <? _) = true |- _ => apply N.ltb_lt in H
         | H : (_ =? _) = true |- _ => apply N.eqb_eq in H
         end.

(** Everything [regroup_ok] checks, for the bytes [x] and [y]. *)
Ltac regroup x y :=
  let H := fresh "R" in
  pose proof (regroup_ok_all (Byte.to_N x) (Byte.to_N y)
                (byte_lt x) (byte_lt y)) as H;
  unfold regroup_ok, s0, s1, s2, s3 in H; split_andb H; to_props.

Ltac decode_char :=
  cbn [a2b_loop];
  rewrite table_not_pad, table_roundtrip by assumption;
  cbn match.

Lemma a2b_loop_group (a b c : Byte.byte) (rest : string) (bin : bytes) :
  a2b_loop
    (String (table_b2a (N.shiftr (Byte.to_N a) 2))
       (String (table_b2a (N.lor (N.shiftl (N.land (Byte.to_N a) 3) 4)
                                 (N.shiftr (Byte.to_N b) 4)))
          (String (table_b2a (N.lor (N.shiftl (N.land (Byte.to_N b) 15) 2)
                                    (N.shiftr (Byte.to_N c) 6)))
             (String (table_b2a (N.land (Byte.to_N c) 63)) rest))))
    0 0 0 bin
  = a2b_loop rest 0 0 0 (List.app bin [a; b; c]).
Proof.
  regroup a b. regroup b c. regroup c c.
  do 4 decode_char.
  repeat match goal with H : _ = _ |- _ => rewrite H end.
  rewrite !to_byte_to_N, <- !app_assoc. reflexivity.
Qed.

Lemma a2b_loop_last1 (a : Byte.byte) (bin : bytes) :
  a2b_loop (b64encode [a]) 0 0 0 bin = inr (List.app bin [a]).
Proof.
  regroup a a. cbn [b64encode fstring sextet append].
  do 2 decode_char.
  repeat match goal with H : _ = _ |- _ => rewrite H end.
  rewrite !to_byte_to_N. reflexivity.
Qed.

Lemma a2b_loop_last2 (a b : Byte.byte) (bin : bytes) :
  a2b_loop (b64encode [a; b]) 0 0 0 bin = inr (List.app bin [a; b]).
Proof.
  regroup a b. regroup b b. cbn [b64encode fstring sextet append].
  do 3 decode_char.
  repeat match goal with H : _ = _ |- _ => rewrite H end.
  rewrite !to_byte_to_N, <- !app_assoc. reflexivity.
Qed.

(** Induction over a list three items at a time. *)
Lemma list_ind3 {A} (P : list A -> Prop) :
  P [] -> (forall a, P [a]) -> (forall a b, P [a; b]) ->
  (forall a b c l, P l -> P (a :: b :: c :: l)) ->
  forall l, P l.
Proof.
  intros H0 H1 H2 H3.
  assert (H : forall l, P l /\ (forall a, P (a :: l)) /\
                        (forall a b, P (a :: b :: l))).
  { induction l as [|x l [IH0 [IH1 IH2]]].
    - repeat split; auto.
    - repeat split; auto. }
  intros l; apply H.
Qed.

Lemma a2b_loop_b64encode (bs bin : bytes) :
  a2b_loop (b64encode bs) 0 0 0 bin = inr (List.app bin bs).
Proof.
  revert bin. induction bs as [|a|a b|a b c l IH] using list_ind3; intros bin.
  - now rewrite app_nil_r.
  - apply a2b_loop_last1.
  - apply a2b_loop_last2.
  - cbn [b64encode]. cbv zeta. rewrite a2b_loop_group, IH, <- app_assoc.
    reflexivity.
Qed.

Lemma b64encode_is_ascii (bs : bytes) : is_ascii (b64encode bs) = true.
Proof.
  induction bs as [|a|a b|a b c l IH] using list_ind3.
  - reflexivity.
  - regroup a a. cbn [b64encode fstring sextet append is_ascii].
    rewrite !table_is_ascii by assumption. reflexivity.
  - regroup a b. regroup b b. cbn [b64encode fstring sextet append is_ascii].
    rewrite !table_is_ascii by assumption. reflexivity.
  - regroup a b. regroup b c. regroup c c.
    cbn [b64encode is_ascii]. cbv zeta.
    rewrite !table_is_ascii by assumption. exact IH.
Qed.

Lemma b64encode_no_comma (bs : bytes) :
  contains_char comma (b64encode bs) = false.
Proof.
  induction bs as [|a|a b|a b c l IH] using list_ind3.
  - reflexivity.
  - regroup a a. cbn [b64encode fstring sextet append contains_char].
    rewrite !table_not_comma by assumption. reflexivity.
  - regroup a b. regroup b b.
    cbn [b64encode fstring sextet append contains_char].
    rewrite !table_not_comma by assumption. reflexivity.
  - regroup a b. regroup b c. regroup c c.
    cbn [b64encode contains_char]. cbv zeta.
    rewrite !table_not_comma by assumption. exact IH.
Qed.

(** Decoding an encoding gives the bytes back. *)
Lemma b64decode_b64encode (bs : bytes) : b64decode (b64encode bs) = inr bs.
Proof.
  unfold b64decode. rewrite b64encode_is_ascii. apply a2b_loop_b64encode.
Qed.

End Base64Facts.

(** ** [POST /ai/inpaint] *)

Lemma inpaint_image_success {PIL : ImageLib} (request : InpaintRequest.t)
      (bs mask : Py.bytes) (image : Image) (png : Py.bytes) :
  decode_data (InpaintRequest.image_data request) = inr bs ->
  decode_data (InpaintRequest.mask_data request) = inr mask ->
  Image_open bs = inr image ->
  Image_save_png image = inr png ->
  response (inpaint_image request) =
  Ok {| InpaintResponse.image_data :=
          "data:image/png;base64," ++ Base64.b64encode png |}.
Proof.
  intros Hd Hm Ho Hs. unfold inpaint_image, response, try_except, bind, lift.
  simpl. rewrite Hd, Hm, Ho, Hs. reflexivity.
Qed.

(** The data URI of an inpaint response decodes, by the handlers' own rule,
    to the bytes that were encoded. *)
Lemma decode_data_uri (png : Py.bytes) :
  decode_data ("data:image/png;base64," ++ Base64.b64encode png) = inr png.
Proof.
  rewrite decode_data_with_comma by reflexivity.
  change (after_first comma ("data:image/png;base64," ++ Base64.b64encode png))
    with (Base64.b64encode png).
  rewrite StrFacts.before_first_absent by apply Base64Facts.b64encode_no_comma.
  apply Base64Facts.b64decode_b64encode.
Qed.


Lemma HeaderImageLib_preserves_size : png_preserves_size HeaderImageLib.
Proof.
  intros [[|] w h] png H; simpl in H; [|discriminate].
  injection H as <-.
  exists {| header_mode := RGB; header_width := w; header_height := h |}.
  repeat split.
Defined.



(** An image that opens but cannot be written as PNG fails the request as
    well. *)
Example inpaint_unwritable_mode :
  Image_open (ImageLib := HeaderImageLib) [Byte.x01; Byte.x64; Byte.x32]
  = inr {| header_mode := CMYK; header_width := Byte.x64;
           header_height := Byte.x32 |} /\
  response (inpaint_image (PIL := HeaderImageLib)
              {| InpaintRequest.image_data := "data:image/jpeg;base64,AWQy";
                 InpaintRequest.mask_data := "AAAA";
                 InpaintRequest.prompt := "remove the tree" |})
  = HTTPException 500 "cannot write mode CMYK as PNG".
Proof. split; reflexivity. Qed.


(** ** Failures *)

(** The [except] clause turns a raised exception into status 500 with the
    exception's text, and leaves a returned value alone. *)
Lemma try_except_cases {A} (label : string) (body : M A) :
  match snd body with
  | inl e => response (try_except label body) = HTTPException 500 (exc_str e)
  | inr a => response (try_except label body) = Ok a
  end.
Proof. destruct body as [lg [e|a]]; reflexivity. Qed.

(** The error is logged once, after whatever the body had logged. *)
Lemma try_except_log {A} (label : string) (body : M A) (e : Exception) :
  snd body = inl e ->
  log (try_except label body) =
  List.app (fst body) [(ERROR, label ++ exc_str e)].
Proof. destruct body as [lg [e'|a]]; simpl; intros H; now inversion H. Qed.

(** *** The successful answers have the documented shape *)




(** *** Malformed base64 is refused *)









(** Malformed base64 and bytes that are not an image, on concrete requests. *)
Example trace_malformed_base64 :
  trace_image (PIL := HeaderImageLib) {| TraceImageRequest.image_data := "ab" |}
  = ([(INFO, "Tracing image to SVG");
      (ERROR, "Error tracing image: Incorrect padding")],
     HTTPException 500 "Incorrect padding").
Proof. reflexivity. Qed.

Example trace_not_an_image :
  trace_image (PIL := HeaderImageLib)
    {| TraceImageRequest.image_data := "data:image/png;base64,aGVsbG8=" |}
  = ([(INFO, "Tracing image to SVG");
      (ERROR, "Error tracing image: cannot identify image file")],
     HTTPException 500 "cannot identify image file").
Proof. reflexivity. Qed.

Example inpaint_non_ascii_payload :
  response (inpaint_image (PIL := HeaderImageLib)
              {| InpaintRequest.image_data := String (ascii_of_nat 233) "AAA";
                 InpaintRequest.mask_data := "AAAA";
                 InpaintRequest.prompt := "p" |})
  = HTTPException 500 "string argument should contain only ASCII characters".
Proof. reflexivity. Qed.

(** * Further properties of the handlers *)

(** ** What is logged *)

(** X1: layout, palette and search log one INFO record and nothing else;
    trace and inpaint log one INFO record on success, and on failure the
    same record followed by one ERROR record made of the handler's label and
    the very detail sent to the client. *)
Theorem handlers_log {PIL : ImageLib} :
  (forall request,
      log (generate_layout request) =
      [(INFO, "Generating layout for prompt: "
              ++ GenerateLayoutRequest.prompt request)]) /\
  (forall request,
      log (generate_palette request) = [(INFO, "Generating color palette")]) /\
  (forall query limit,
      log (search_assets query limit) =
      [(INFO, "Searching assets for: " ++ query)]) /\
  (forall request,
      match response (trace_image request) with
      | Ok _ => log (trace_image request) = [(INFO, "Tracing image to SVG")]
      | HTTPException _ detail =>
          log (trace_image request) =
          [(INFO, "Tracing image to SVG");
           (ERROR, "Error tracing image: " ++ detail)]
      end) /\
  (forall request,
      match response (inpaint_image request) with
      | Ok _ =>
          log (inpaint_image request) =
          [(INFO, "Inpainting image with prompt: "
                  ++ InpaintRequest.prompt request)]
      | HTTPException _ detail =>
          log (inpaint_image request) =
          [(INFO, "Inpainting image with prompt: "
                  ++ InpaintRequest.prompt request);
           (ERROR, "Error inpainting image: " ++ detail)]
      end).
Proof.
  split; [reflexivity|]. split; [reflexivity|]. split; [reflexivity|].
  split; intros request.
  - unfold trace_image, response, log, try_except, bind, lift. simpl.
    destruct (decode_data (TraceImageRequest.image_data request)) as [e|bs];
      [reflexivity|].
    destruct (Image_open bs) as [e|image]; reflexivity.
  - unfold inpaint_image, response, log, try_except, bind, lift. simpl.
    destruct (decode_data (InpaintRequest.image_data request)) as [e|bs];
      [reflexivity|].
    destruct (decode_data (InpaintRequest.mask_data request)) as [e|mask];
      [reflexivity|].
    destruct (Image_open bs) as [e|image]; [reflexivity|].
    destruct (Image_save_png image) as [e|png]; reflexivity.
Qed.

(** ** Trace *)

(** X2: the answer to a trace request depends on the image only through its
    width and height: two payloads that open as images of the same size get
    the same answer, whatever the pixels. *)
Theorem trace_depends_on_size {PIL : ImageLib} (r1 r2 : TraceImageRequest.t)
        (bs1 bs2 : Py.bytes) (im1 im2 : Image) :
  decode_data (TraceImageRequest.image_data r1) = inr bs1 ->
  Image_open bs1 = inr im1 ->
  decode_data (TraceImageRequest.image_data r2) = inr bs2 ->
  Image_open bs2 = inr im2 ->
  Image_width im1 = Image_width im2 ->
  Image_height im1 = Image_height im2 ->
  trace_image r1 = trace_image r2.
Proof.
  intros Hd1 Ho1 Hd2 Ho2 Hw Hh.
  unfold trace_image, try_except, bind, lift. simpl.
  rewrite Hd1, Ho1, Hd2, Ho2, Hw, Hh. reflexivity.
Qed.

Lemma trace_depends_on_size_witness :
  trace_image (PIL := HeaderImageLib)
    {| TraceImageRequest.image_data := "data:image/png;base64,AGQy" |}
  = trace_image (PIL := HeaderImageLib)
      {| TraceImageRequest.image_data := "data:image/jpeg;base64,AWQy" |}.
Proof.
  apply (trace_depends_on_size (PIL := HeaderImageLib)
           {| TraceImageRequest.image_data := "data:image/png;base64,AGQy" |}
           {| TraceImageRequest.image_data := "data:image/jpeg;base64,AWQy" |}
           [Byte.x00; Byte.x64; Byte.x32] [Byte.x01; Byte.x64; Byte.x32]
           {| header_mode := RGB; header_width := Byte.x64;
              header_height := Byte.x32 |}
           {| header_mode := CMYK; header_width := Byte.x64;
              header_height := Byte.x32 |}); reflexivity.
Defined.

Lemma str_of_int_negative (i : Z) :
  (i < 0)%Z -> exists digits, Py.str_of_int i = String "-"%char digits.
Proof.
  destruct i as [|p|p]; try lia. intros _.
  unfold Py.str_of_int. simpl. eexists. reflexivity.
Qed.

Lemma svg_document_stripped (w h : Z) :
  Py.strip (svg_document w h) = svg_document w h.
Proof.
  unfold Py.strip.
  assert (Hl : Py.lstrip (svg_document w h) = svg_document w h) by reflexivity.
  rewrite Hl. unfold svg_document.
  match goal with
  | |- Py.rstrip (Py.fstring ?l) = _ =>
      change l with (List.app (removelast l) ["        </svg>"])
  end.
  rewrite StrFacts.fstring_app.
  apply StrFacts.rstrip_append. discriminate.
Qed.

Lemma svg_document_rect (w h : Z) :
  Py.substringb (svg_rect w h) (svg_document w h) = true.
Proof.
  apply StrFacts.substringb_spec.
  exists (Py.fstring
            ["<svg "; attr "width" (Py.str_of_int w); " ";
             attr "height" (Py.str_of_int h); " ";
             attr "xmlns" "http://www.w3.org/2000/svg"; ">"; Py.nl;
             "            "]).
  exists (Py.fstring
            [" "; Py.nl;
             "                  "; attr "fill" "none"; " ";
             attr "stroke" "#000000"; " "; attr "stroke-width" "2"; "/>"; Py.nl;
             "            <text "; attr "x" (Py.str_of_int (w / 2)); " ";
             attr "y" (Py.str_of_int (h / 2)); " "; Py.nl;
             "                  "; attr "text-anchor" "middle"; " ";
             attr "font-family" "Arial"; " "; attr "font-size" "16"; ">"; Py.nl;
             "                Traced Image"; Py.nl;
             "            </text>"; Py.nl;
             "        </svg>"]).
  unfold svg_rect, svg_document. rewrite <- !StrFacts.fstring_app.
  reflexivity.
Qed.

Lemma svg_document_text_position (w h : Z) :
  Py.substringb (svg_text_position w h) (svg_document w h) = true.
Proof.
  apply StrFacts.substringb_spec.
  exists (Py.fstring
            ["<svg "; attr "width" (Py.str_of_int w); " ";
             attr "height" (Py.str_of_int h); " ";
             attr "xmlns" "http://www.w3.org/2000/svg"; ">"; Py.nl;
             "            <rect "; attr "x" "10"; " "; attr "y" "10"; " ";
             attr "width" (Py.str_of_int (w - 20)); " ";
             attr "height" (Py.str_of_int (h - 20)); " "; Py.nl;
             "                  "; attr "fill" "none"; " ";
             attr "stroke" "#000000"; " "; attr "stroke-width" "2"; "/>"; Py.nl;
             "            "]).
  exists (Py.fstring
            [" "; Py.nl;
             "                  "; attr "text-anchor" "middle"; " ";
             attr "font-family" "Arial"; " "; attr "font-size" "16"; ">"; Py.nl;
             "                Traced Image"; Py.nl;
             "            </text>"; Py.nl;
             "        </svg>"]).
  unfold svg_text_position, svg_document. rewrite <- !StrFacts.fstring_app.
  reflexivity.
Qed.

Lemma rect_tag_spelled (w h : Z) : svg_rect w h = rect_tag w h.
Proof.
  unfold svg_rect, rect_tag, attr, decimal, quote_mark, Py.str_of_int.
  cbn [Py.fstring]. rewrite !StrFacts.append_assoc. reflexivity.
Qed.

Lemma text_tag_spelled (w h : Z) : svg_text_position w h = text_tag w h.
Proof.
  unfold svg_text_position, text_tag, attr, decimal, quote_mark, Py.str_of_int.
  cbn [Py.fstring]. rewrite !StrFacts.append_assoc. reflexivity.
Qed.

(** X3: the SVG of a successful trace starts with [<svg ] and carries no
    surrounding whitespace; its border rectangle is written
    [<rect x="10" y="10" width="w-20" height="h-20"] and its caption
    [<text x="w//2" y="h//2"], the numbers in decimal.  For an image
    narrower or lower than 20 pixels the rectangle's width or height is
    written as a negative number. *)
Theorem trace_svg_geometry {PIL : ImageLib} (request : TraceImageRequest.t)
        (bs : Py.bytes) (image : Image) :
  decode_data (TraceImageRequest.image_data request) = inr bs ->
  Image_open bs = inr image ->
  exists resp,
    response (trace_image request) = Ok resp /\
    String.prefix "<svg " (TraceImageResponse.svg_content resp) = true /\
    Py.strip (TraceImageResponse.svg_content resp)
    = TraceImageResponse.svg_content resp /\
    Py.substringb (rect_tag (Image_width image) (Image_height image))
      (TraceImageResponse.svg_content resp) = true /\
    Py.substringb (text_tag (Image_width image) (Image_height image))
      (TraceImageResponse.svg_content resp) = true /\
    ((Image_width image < 20)%Z ->
     exists digits,
       decimal (Image_width image - 20) = String "-"%char digits) /\
    ((Image_height image < 20)%Z ->
     exists digits,
       decimal (Image_height image - 20) = String "-"%char digits).
Proof.
  intros Hd Ho. eexists. split; [apply (trace_image_success _ _ _ Hd Ho)|].
  cbn [TraceImageResponse.svg_content].
  split; [reflexivity|].
  split; [apply svg_document_stripped|].
  split; [rewrite <- rect_tag_spelled; apply svg_document_rect|].
  split; [rewrite <- text_tag_spelled; apply svg_document_text_position|].
  split; intros H; apply str_of_int_negative; lia.
Qed.

Lemma trace_svg_geometry_witness :
  exists resp,
    response (trace_image (PIL := HeaderImageLib)
                {| TraceImageRequest.image_data := "AAcF" |}) = Ok resp /\
    Py.substringb
      ("<rect x=" ++ String "034"%char ("10" ++ String "034"%char
       (" y=" ++ String "034"%char ("10" ++ String "034"%char
       (" width=" ++ String "034"%char ("-13" ++ String "034"%char
       (" height=" ++ String "034"%char ("-15" ++ String "034"%char
        EmptyString))))))))
      (TraceImageResponse.svg_content resp) = true /\
    Py.substringb
      ("<text x=" ++ String "034"%char ("3" ++ String "034"%char
       (" y=" ++ String "034"%char ("2" ++ String "034"%char EmptyString))))
      (TraceImageResponse.svg_content resp) = true.
Proof.
  destruct (trace_svg_geometry (PIL := HeaderImageLib)
              {| TraceImageRequest.image_data := "AAcF" |}
              [Byte.x00; Byte.x07; Byte.x05]
              {| header_mode := RGB; header_width := Byte.x07;
                 header_height := Byte.x05 |} eq_refl eq_refl)
    as [resp [H1 [_ [_ [H2 [H3 _]]]]]].
  exists resp. split; [exact H1|]. split; [exact H2|exact H3].
Defined.

(** ** Payloads *)

Module PayloadFacts.
Import Py Base64.

Lemma contains_char_append (c : ascii) (a b : string) :
  contains_char c (a ++ b) = contains_char c a || contains_char c b.
Proof.
  induction a as [|x a IH]; simpl; [reflexivity|].
  now rewrite IH, orb_assoc.
Qed.

Lemma after_first_append (sep : ascii) (p x : string) :
  contains_char sep p = false -> after_first sep (p ++ String sep x) = x.
Proof.
  induction p as [|c p IH]; simpl.
  - intros _. now rewrite Ascii.eqb_refl.
  - intros H. apply orb_false_iff in H as [Hc Hp]. now rewrite Hc, IH.
Qed.

Lemma before_first_append (sep : ascii) (a t : string) :
  contains_char sep a = false -> before_first sep (a ++ String sep t) = a.
Proof.
  induction a as [|c a IH]; simpl.
  - intros _. now rewrite Ascii.eqb_refl.
  - intros H. apply orb_false_iff in H as [Hc Ha]. now rewrite Hc, IH.
Qed.

Lemma contains_sep_append (sep : ascii) (p x : string) :
  contains_char sep (p ++ String sep x) = true.
Proof.
  rewrite contains_char_append. simpl. rewrite Ascii.eqb_refl.
  apply orb_true_r.
Qed.

Lemma is_ascii_append (a b : string) :
  is_ascii (a ++ b) = is_ascii a && is_ascii b.
Proof.
  induction a as [|x a IH]; simpl; [reflexivity|].
  now rewrite IH, andb_assoc.
Qed.

(** The decoding loop only ever raises [binascii.Error]. *)
Lemma a2b_loop_error_class (s : string) :
  forall quad_pos leftchar pads bin e,
    a2b_loop s quad_pos leftchar pads bin = inl e ->
    exc_class e = "binascii.Error".
Proof.
  induction s as [|c s IH]; intros quad_pos leftchar pads bin e H.
  - destruct quad_pos as [|[|q]]; simpl in H; inversion H; reflexivity.
  - cbn [a2b_loop] in H.
    destruct (Ascii.eqb c pad).
    + destruct (2 <=? quad_pos)%nat; [|now apply IH in H].
      destruct (4 <=? quad_pos + S pads)%nat; [discriminate|now apply IH in H].
    + destruct (table_a2b c); [|now apply IH in H].
      destruct quad_pos as [|[|[|q]]]; now apply IH in H.
Qed.

(** A character outside the alphabet, other than the pad, is skipped. *)
Lemma a2b_loop_skip (c : ascii) (s2 : string) :
  table_a2b c = None -> Ascii.eqb c pad = false ->
  forall s1 quad_pos leftchar pads bin,
    a2b_loop (s1 ++ String c s2) quad_pos leftchar pads bin
    = a2b_loop (s1 ++ s2) quad_pos leftchar pads bin.
Proof.
  intros Hc Hp. induction s1 as [|x s1 IH]; intros quad_pos leftchar pads bin.
  - cbn [append a2b_loop]. now rewrite Hp, Hc.
  - cbn [append a2b_loop].
    destruct (Ascii.eqb x pad).
    + destruct (2 <=? quad_pos)%nat; [|apply IH].
      destruct (4 <=? quad_pos + S pads)%nat; [reflexivity|apply IH].
    + destruct (table_a2b x); [|apply IH].
      destruct quad_pos as [|[|[|q]]]; apply IH.
Qed.

Lemma string_length_append (a b : string) :
  String.length (a ++ b) = (String.length a + String.length b)%nat.
Proof. induction a as [|x a IH]; simpl; [reflexivity|now rewrite IH]. Qed.

Lemma b64encode_length (bs : bytes) :
  String.length (b64encode bs) = (4 * ((List.length bs + 2) / 3))%nat.
Proof.
  induction bs as [|a|a b|a b c l IH] using Base64Facts.list_ind3;
    try reflexivity.
  cbn [b64encode String.length List.length]. cbv zeta.
  cbn [String.length]. rewrite IH.
  replace (S (S (S (List.length l))) + 2)%nat
    with (1 * 3 + (List.length l + 2))%nat by lia.
  rewrite Nat.div_add_l by discriminate. lia.
Qed.

End PayloadFacts.

(** X4: the base64 text of any bytes, behind any prefix that has no comma of
    its own and one comma, or with no prefix at all, is decoded by the
    handlers to exactly those bytes. *)
Theorem decode_data_roundtrip (prefix : string) (bs : Py.bytes) :
  Py.contains_char comma prefix = false ->
  decode_data (prefix ++ "," ++ Base64.b64encode bs) = inr bs /\
  decode_data (Base64.b64encode bs) = inr bs.
Proof.
  intros Hp. split.
  - rewrite decode_data_with_comma
      by apply (PayloadFacts.contains_sep_append comma).
    change ("," ++ Base64.b64encode bs) with (String comma (Base64.b64encode bs)).
    rewrite PayloadFacts.after_first_append by exact Hp.
    rewrite StrFacts.before_first_absent by apply Base64Facts.b64encode_no_comma.
    apply Base64Facts.b64decode_b64encode.
  - rewrite decode_data_without_comma by apply Base64Facts.b64encode_no_comma.
    apply Base64Facts.b64decode_b64encode.
Qed.

Lemma decode_data_roundtrip_witness :
  decode_data ("data:image/webp;base64" ++ "," ++ "aGVsbG8=")
  = inr [Byte.x68; Byte.x65; Byte.x6c; Byte.x6c; Byte.x6f].
Proof.
  apply (decode_data_roundtrip "data:image/webp;base64"
           [Byte.x68; Byte.x65; Byte.x6c; Byte.x6c; Byte.x6f]).
  reflexivity.
Defined.

(** X5: the index [1] taken from the split never raises [IndexError]: the
    argument handed to the decoder always exists and holds no comma, and a
    payload that fails to decode fails with a [ValueError] (non-ASCII text)
    or a [binascii.Error], nothing else. *)
Theorem b64_argument_never_fails (data : string) :
  exists arg,
    b64_argument data = inr arg /\
    Py.contains_char comma arg = false /\
    (forall e, decode_data data = inl e ->
               exc_class e = "ValueError" \/ exc_class e = "binascii.Error").
Proof.
  assert (Harg : exists arg, b64_argument data = inr arg /\
                             Py.contains_char comma arg = false).
  { destruct (Py.contains_char comma data) eqn:Hc.
    - eexists. split; [apply (b64_argument_segment _ Hc)|].
      apply before_first_no_sep.
    - exists data. split; [|exact Hc].
      unfold b64_argument. now rewrite Hc. }
  destruct Harg as [arg [Harg Hno]]. exists arg.
  split; [exact Harg|]. split; [exact Hno|].
  intros e He. unfold decode_data in He. rewrite Harg in He.
  unfold Base64.b64decode in He.
  destruct (Base64.is_ascii arg).
  - right. apply (PayloadFacts.a2b_loop_error_class _ _ _ _ _ _ He).
  - left. inversion He. reflexivity.
Qed.

Lemma b64_argument_never_fails_witness :
  exists arg,
    b64_argument "a,b" = inr arg /\
    (exc_class
       (Base64.binascii_Error
          "Invalid base64-encoded string: number of data characters (1) cannot be 1 more than a multiple of 4")
     = "ValueError" \/
     exc_class
       (Base64.binascii_Error
          "Invalid base64-encoded string: number of data characters (1) cannot be 1 more than a multiple of 4")
     = "binascii.Error").
Proof.
  destruct (b64_argument_never_fails "a,b") as [arg [H1 [_ H3]]].
  exists arg. split; [exact H1|]. apply H3. reflexivity.
Defined.

Lemma trace_image_success_full {PIL : ImageLib} (request : TraceImageRequest.t)
      (bs : Py.bytes) (image : Image) :
  decode_data (TraceImageRequest.image_data request) = inr bs ->
  Image_open bs = inr image ->
  trace_image request =
  ([(INFO, "Tracing image to SVG")],
   Ok {| TraceImageResponse.svg_content :=
           svg_document (Image_width image) (Image_height image);
         TraceImageResponse.confidence := 0.85%float |}).
Proof.
  intros Hd Ho. unfold trace_image, try_except, bind, lift.
  simpl. rewrite Hd, Ho. simpl. now rewrite strip_svg_template.
Qed.

(** X6: of a payload with two commas or more, only the text between the
    first two reaches the decoder.  When that text decodes and opens as an
    image, or when it fails to decode, the prefix before the first comma and
    everything from the second comma on change nothing in the answer to a
    trace request. *)
Theorem trace_ignores_prefix_and_tail {PIL : ImageLib} (prefix arg tail : string) :
  Py.contains_char comma prefix = false ->
  Py.contains_char comma arg = false ->
  decode_data (prefix ++ "," ++ arg ++ "," ++ tail) = Base64.b64decode arg /\
  (forall bs image,
      Base64.b64decode arg = inr bs ->
      Image_open bs = inr image ->
      trace_image
        {| TraceImageRequest.image_data := prefix ++ "," ++ arg ++ "," ++ tail |}
      = trace_image {| TraceImageRequest.image_data := arg |} /\
      response
        (trace_image
           {| TraceImageRequest.image_data :=
                prefix ++ "," ++ arg ++ "," ++ tail |})
      = Ok {| TraceImageResponse.svg_content :=
                svg_document (Image_width image) (Image_height image);
              TraceImageResponse.confidence := 0.85%float |}) /\
  (forall e,
      Base64.b64decode arg = inl e ->
      trace_image
        {| TraceImageRequest.image_data := prefix ++ "," ++ arg ++ "," ++ tail |}
      = trace_image {| TraceImageRequest.image_data := arg |} /\
      response
        (trace_image
           {| TraceImageRequest.image_data :=
                prefix ++ "," ++ arg ++ "," ++ tail |})
      = HTTPException 500 (exc_str e)).
Proof.
  intros Hp Ha.
  assert (Hd : decode_data (prefix ++ "," ++ arg ++ "," ++ tail)
               = Base64.b64decode arg).
  { rewrite decode_data_with_comma
      by apply (PayloadFacts.contains_sep_append comma).
    change ("," ++ arg ++ "," ++ tail)
      with (String comma (arg ++ String comma tail)).
    rewrite PayloadFacts.after_first_append by exact Hp.
    now rewrite PayloadFacts.before_first_append by exact Ha. }
  assert (Hd' : decode_data arg = Base64.b64decode arg)
    by now apply decode_data_without_comma.
  split; [exact Hd|]. split.
  - intros bs image Hb Ho. rewrite Hb in Hd, Hd'.
    rewrite (trace_image_success_full
               {| TraceImageRequest.image_data :=
                    prefix ++ "," ++ arg ++ "," ++ tail |} bs image Hd Ho).
    rewrite (trace_image_success_full
               {| TraceImageRequest.image_data := arg |} bs image Hd' Ho).
    split; reflexivity.
  - intros e He. rewrite He in Hd, Hd'.
    unfold trace_image, response, try_except, bind, lift.
    cbn [TraceImageRequest.image_data logger_info fst snd].
    rewrite Hd, Hd'. split; reflexivity.
Qed.

Lemma trace_ignores_prefix_and_tail_witness :
  trace_image (PIL := HeaderImageLib)
    {| TraceImageRequest.image_data :=
         "data:image/png;base64" ++ "," ++ "AGQy" ++ "," ++ "not base64 at all" |}
  = trace_image (PIL := HeaderImageLib)
      {| TraceImageRequest.image_data := "AGQy" |} /\
  response
    (trace_image (PIL := HeaderImageLib)
       {| TraceImageRequest.image_data :=
            "data:image/png;base64" ++ "," ++ "ab" ++ "," ++ "AGQy" |})
  = HTTPException 500 "Incorrect padding".
Proof.
  destruct (trace_ignores_prefix_and_tail (PIL := HeaderImageLib)
              "data:image/png;base64" "AGQy" "not base64 at all"
              eq_refl eq_refl) as [_ [H _]].
  destruct (trace_ignores_prefix_and_tail (PIL := HeaderImageLib)
              "data:image/png;base64" "ab" "AGQy" eq_refl eq_refl)
    as [_ [_ H']].
  split.
  - apply (H [Byte.x00; Byte.x64; Byte.x32]
             {| header_mode := RGB; header_width := Byte.x64;
                header_height := Byte.x32 |}); reflexivity.
  - apply (H' (Base64.binascii_Error "Incorrect padding")). reflexivity.
Defined.

(** X7: the decoder is lenient: an ASCII character that is neither in the
    base64 alphabet, nor the pad, nor a comma (a line break, a space) may
    sit anywhere in a comma-free payload without changing what is decoded. *)
Theorem decode_data_skips_foreign (c : ascii) (s1 s2 : string) :
  Base64.table_a2b c = None ->
  Ascii.eqb c Base64.pad = false ->
  Ascii.eqb c comma = false ->
  (N_of_ascii c <? 128)%N = true ->
  Py.contains_char comma s1 = false ->
  Py.contains_char comma s2 = false ->
  decode_data (s1 ++ String c s2) = decode_data (s1 ++ s2).
Proof.
  intros Ht Hpad Hcomma Hascii H1 H2.
  rewrite !decode_data_without_comma.
  - unfold Base64.b64decode.
    rewrite !PayloadFacts.is_ascii_append. cbn [Base64.is_ascii].
    rewrite Hascii. cbn [andb].
    destruct (Base64.is_ascii s1 && Base64.is_ascii s2); [|reflexivity].
    now apply PayloadFacts.a2b_loop_skip.
  - rewrite PayloadFacts.contains_char_append. now rewrite H1, H2.
  - rewrite PayloadFacts.contains_char_append. cbn [Py.contains_char].
    now rewrite H1, H2, Hcomma.
Qed.

Lemma decode_data_skips_foreign_witness :
  decode_data ("aGVs" ++ String (ascii_of_nat 10) "bG8=")
  = decode_data ("aGVs" ++ "bG8=").
Proof.
  apply (decode_data_skips_foreign (ascii_of_nat 10) "aGVs" "bG8=");
    reflexivity.
Defined.

(** ** Inpaint *)

(** X8: a successful inpaint answer is a function of the decoded image
    bytes: two requests whose image payloads decode to the same bytes, which
    open and can be written as PNG, and whose masks both decode, get the
    same response, whatever their prompts, masks and data-URI prefixes. *)
Theorem inpaint_depends_on_image_bytes {PIL : ImageLib}
        (r1 r2 : InpaintRequest.t) (bs mask1 mask2 : Py.bytes)
        (image : Image) (png : Py.bytes) :
  decode_data (InpaintRequest.image_data r1) = inr bs ->
  decode_data (InpaintRequest.image_data r2) = inr bs ->
  decode_data (InpaintRequest.mask_data r1) = inr mask1 ->
  decode_data (InpaintRequest.mask_data r2) = inr mask2 ->
  Image_open bs = inr image ->
  Image_save_png image = inr png ->
  response (inpaint_image r1) = response (inpaint_image r2) /\
  response (inpaint_image r1)
  = Ok {| InpaintResponse.image_data :=
            "data:image/png;base64," ++ Base64.b64encode png |}.
Proof.
  intros Hd1 Hd2 Hm1 Hm2 Ho Hs.
  rewrite (inpaint_image_success _ _ _ _ _ Hd1 Hm1 Ho Hs).
  rewrite (inpaint_image_success _ _ _ _ _ Hd2 Hm2 Ho Hs).
  split; reflexivity.
Qed.

Lemma inpaint_depends_on_image_bytes_witness :
  response (inpaint_image (PIL := HeaderImageLib)
              {| InpaintRequest.image_data := "data:image/png;base64,AGQy";
                 InpaintRequest.mask_data := "AAAA";
                 InpaintRequest.prompt := "remove the tree" |})
  = response (inpaint_image (PIL := HeaderImageLib)
                {| InpaintRequest.image_data := "AGQy";
                   InpaintRequest.mask_data := "data:image/png;base64,";
                   InpaintRequest.prompt := "add a cloud" |}).
Proof.
  apply (inpaint_depends_on_image_bytes (PIL := HeaderImageLib)
           {| InpaintRequest.image_data := "data:image/png;base64,AGQy";
              InpaintRequest.mask_data := "AAAA";
              InpaintRequest.prompt := "remove the tree" |}
           {| InpaintRequest.image_data := "AGQy";
              InpaintRequest.mask_data := "data:image/png;base64,";
              InpaintRequest.prompt := "add a cloud" |}
           [Byte.x00; Byte.x64; Byte.x32] [Byte.x00; Byte.x00; Byte.x00] []
           {| header_mode := RGB; header_width := Byte.x64;
              header_height := Byte.x32 |}
           [Byte.x00; Byte.x64; Byte.x32]);
    reflexivity.
Defined.

(** X9: tracing the image an inpaint request returned succeeds and gives the
    SVG of the original image's size, the same answer as tracing the
    original payload (the PNG writer and reader keeping the size). *)
Theorem inpaint_then_trace {PIL : ImageLib} (request : InpaintRequest.t)
        (bs mask : Py.bytes) (image : Image) (png : Py.bytes) :
  png_preserves_size PIL ->
  decode_data (InpaintRequest.image_data request) = inr bs ->
  Image_open bs = inr image ->
  decode_data (InpaintRequest.mask_data request) = inr mask ->
  Image_save_png image = inr png ->
  exists resp,
    response (inpaint_image request) = Ok resp /\
    response (trace_image
                {| TraceImageRequest.image_data :=
                     InpaintResponse.image_data resp |})
    = Ok {| TraceImageResponse.svg_content :=
              svg_document (Image_width image) (Image_height image);
            TraceImageResponse.confidence := 0.85%float |} /\
    trace_image
      {| TraceImageRequest.image_data := InpaintResponse.image_data resp |}
    = trace_image
        {| TraceImageRequest.image_data := InpaintRequest.image_data request |}.
Proof.
  intros Hpng Hd Ho Hm Hs.
  destruct (Hpng image png Hs) as [image' [Ho' [Hw Hh]]].
  eexists. split; [apply (inpaint_image_success _ _ _ _ _ Hd Hm Ho Hs)|].
  cbn [InpaintResponse.image_data].
  pose proof (decode_data_uri png) as Hpd.
  split.
  - rewrite <- Hw, <- Hh.
    apply (trace_image_success
             {| TraceImageRequest.image_data :=
                  "data:image/png;base64," ++ Base64.b64encode png |}
             png image' Hpd Ho').
  - rewrite (trace_image_success_full
               {| TraceImageRequest.image_data :=
                    "data:image/png;base64," ++ Base64.b64encode png |}
               png image' Hpd Ho').
    rewrite (trace_image_success_full
               {| TraceImageRequest.image_data :=
                    InpaintRequest.image_data request |}
               bs image Hd Ho).
    now rewrite Hw, Hh.
Qed.

Lemma inpaint_then_trace_witness :
  exists resp,
    response (inpaint_image (PIL := HeaderImageLib)
                {| InpaintRequest.image_data := "AGQy";
                   InpaintRequest.mask_data := "AAAA";
                   InpaintRequest.prompt := "remove the tree" |}) = Ok resp /\
    response (trace_image (PIL := HeaderImageLib)
                {| TraceImageRequest.image_data :=
                     InpaintResponse.image_data resp |})
    = Ok {| TraceImageResponse.svg_content := svg_document 100 50;
            TraceImageResponse.confidence := 0.85%float |}.
Proof.
  destruct (inpaint_then_trace (PIL := HeaderImageLib)
              {| InpaintRequest.image_data := "AGQy";
                 InpaintRequest.mask_data := "AAAA";
                 InpaintRequest.prompt := "remove the tree" |}
              [Byte.x00; Byte.x64; Byte.x32] [Byte.x00; Byte.x00; Byte.x00]
              {| header_mode := RGB; header_width := Byte.x64;
                 header_height := Byte.x32 |}
              [Byte.x00; Byte.x64; Byte.x32]
              HeaderImageLib_preserves_size eq_refl eq_refl eq_refl eq_refl)
    as [resp [H1 [H2 _]]].
  exists resp. split; [exact H1|exact H2].
Defined.

(** X10: the [image_data] of a successful inpaint response is 22 characters
    of prefix followed by four characters for every three bytes of PNG,
    rounded up, and holds exactly one comma, the one that ends the prefix. *)
Theorem inpaint_response_size {PIL : ImageLib} (request : InpaintRequest.t)
        (resp : InpaintResponse.t) :
  response (inpaint_image request) = Ok resp ->
  exists png,
    InpaintResponse.image_data resp
    = "data:image/png;base64," ++ Base64.b64encode png /\
    String.length (InpaintResponse.image_data resp)
    = (22 + 4 * ((List.length png + 2) / 3))%nat /\
    Py.split comma (InpaintResponse.image_data resp)
    = ["data:image/png;base64"; Base64.b64encode png].
Proof.
  intros H.
  unfold inpaint_image, response, try_except, bind, lift in H. simpl in H.
  destruct (decode_data (InpaintRequest.image_data request)) as [e|bs];
    [discriminate|].
  destruct (decode_data (InpaintRequest.mask_data request)) as [e|mask];
    [discriminate|].
  destruct (Image_open bs) as [e|image]; [discriminate|].
  destruct (Image_save_png image) as [e|png]; [discriminate|].
  assert (Hr : resp = {| InpaintResponse.image_data :=
                           "data:image/png;base64," ++ Base64.b64encode png |})
    by (injection H as <-; reflexivity).
  subst resp. exists png. cbn [InpaintResponse.image_data].
  split; [reflexivity|]. split.
  - rewrite PayloadFacts.string_length_append, PayloadFacts.b64encode_length.
    reflexivity.
  - pose proof (StrFacts.contains_char_false_split comma _
                  (Base64Facts.b64encode_no_comma png)) as Hsplit.
    simpl. simpl in Hsplit. now rewrite Hsplit.
Qed.

Lemma inpaint_response_size_witness :
  exists png : Py.bytes,
    String.length "data:image/png;base64,AGQy"
    = (22 + 4 * ((List.length png + 2) / 3))%nat.
Proof.
  destruct (inpaint_response_size (PIL := HeaderImageLib)
              {| InpaintRequest.image_data := "AGQy";
                 InpaintRequest.mask_data := "AAAA";
                 InpaintRequest.prompt := "remove the tree" |}
              {| InpaintResponse.image_data := "data:image/png;base64,AGQy" |}
              eq_refl) as [png [_ [H _]]].
  exists png. exact H.
Defined.

(** ** Palette *)

Lemma firstn_prefix {A} (l : list A) (n m : nat) :
  (n <= m)%nat -> is_prefix_of (firstn n l) (firstn m l).
Proof.
  revert n m. induction l as [|x l IH]; intros n m Hnm.
  - exists []. now rewrite !firstn_nil.
  - destruct n as [|n]; [now exists (firstn m (x :: l))|].
    destruct m as [|m]; [lia|].
    destruct (IH n m) as [rest Hrest]; [lia|].
    exists rest. simpl. now rewrite Hrest.
Qed.

Lemma palette_colors_slice (request : GeneratePaletteRequest.t) :
  palette_colors (response (generate_palette request))
  = Py.slice_to fixed_colors (GeneratePaletteRequest.count request).
Proof. reflexivity. Qed.

Lemma fixed_colors_prefix_nodup (n : nat) : NoDup (firstn n fixed_colors).
Proof.
  rewrite PyFacts.firstn_cap.
  assert (H : (Nat.min n (List.length fixed_colors) <= 5)%nat)
    by (simpl; lia).
  destruct (Nat.min n (List.length fixed_colors)) as [|[|[|[|[|[|k]]]]]];
    try lia; simpl;
    repeat (constructor; [simpl; intuition discriminate|]); constructor.
Qed.

(** X11: whatever the count, negative or huge, the colours of a palette
    answer are an initial segment of the fixed palette: at most five, in
    the fixed order, none repeated. *)
Theorem palette_always_prefix (request : GeneratePaletteRequest.t) :
  is_prefix_of (palette_colors (response (generate_palette request)))
    fixed_colors /\
  (0 <= Py.len (palette_colors (response (generate_palette request))) <= 5)%Z /\
  NoDup (palette_colors (response (generate_palette request))).
Proof.
  rewrite palette_colors_slice.
  assert (H : exists n,
             Py.slice_to fixed_colors (GeneratePaletteRequest.count request)
             = firstn n fixed_colors).
  { unfold Py.slice_to.
    destruct (GeneratePaletteRequest.count request <? 0)%Z; eexists; reflexivity. }
  destruct H as [n ->]. split; [|split].
  - exists (skipn n fixed_colors). symmetry. apply firstn_skipn.
  - unfold Py.len. rewrite length_firstn. simpl. lia.
  - apply fixed_colors_prefix_nodup.
Qed.

(** X12: among non-negative counts, and among negative counts, asking for
    more never takes a colour away: the smaller answer is an initial segment
    of the larger one. *)
Theorem palette_monotone (r1 r2 : GeneratePaletteRequest.t) :
  (GeneratePaletteRequest.count r1 <= GeneratePaletteRequest.count r2)%Z ->
  (0 <= GeneratePaletteRequest.count r1)%Z \/
  (GeneratePaletteRequest.count r2 < 0)%Z ->
  is_prefix_of (palette_colors (response (generate_palette r1)))
    (palette_colors (response (generate_palette r2))).
Proof.
  intros Hle Hsign. rewrite !palette_colors_slice.
  destruct Hsign as [H|H].
  - rewrite !PyFacts.slice_to_nonneg by lia. apply firstn_prefix. lia.
  - rewrite !PyFacts.slice_to_neg by lia. apply firstn_prefix. lia.
Qed.

Lemma palette_monotone_witness :
  is_prefix_of
    (palette_colors
       (response (generate_palette
                    {| GeneratePaletteRequest.image_data := None;
                       GeneratePaletteRequest.base_color := None;
                       GeneratePaletteRequest.count := -4 |})))
    (palette_colors
       (response (generate_palette
                    {| GeneratePaletteRequest.image_data := None;
                       GeneratePaletteRequest.base_color := None;
                       GeneratePaletteRequest.count := -2 |}))).
Proof.
  apply (palette_monotone
           {| GeneratePaletteRequest.image_data := None;
              GeneratePaletteRequest.base_color := None;
              GeneratePaletteRequest.count := -4 |}
           {| GeneratePaletteRequest.image_data := None;
              GeneratePaletteRequest.base_color := None;
              GeneratePaletteRequest.count := -2 |}).
  - simpl; lia.
  - right; simpl; lia.
Defined.

(** Across zero the order breaks: [-1] gives four colours, [0] none. *)
Example palette_not_monotone_across_zero :
  palette_colors
    (response (generate_palette
                 {| GeneratePaletteRequest.image_data := None;
                    GeneratePaletteRequest.base_color := None;
                    GeneratePaletteRequest.count := -1 |}))
  = ["#3B82F6"; "#1E40AF"; "#93C5FD"; "#F59E0B"] /\
  palette_colors
    (response (generate_palette
                 {| GeneratePaletteRequest.image_data := None;
                    GeneratePaletteRequest.base_color := None;
                    GeneratePaletteRequest.count := 0 |}))
  = [].
Proof. split; reflexivity. Qed.

(** ** Search *)

Lemma range_effective (limit : Z) :
  Py.range (Z.min limit 5) = Py.range (effective_limit limit).
Proof. unfold Py.range, effective_limit. f_equal. f_equal. lia. Qed.

(** X13: the search response depends on its arguments only through the
    limit capped at 5 and floored at 0: the query never matters, every limit
    of 5 or more answers alike, and so does every limit of 0 or less; the
    total is that clamped limit. *)
Theorem search_depends_on_clamped_limit (q1 q2 : string) (l1 l2 : Z) :
  effective_limit l1 = effective_limit l2 ->
  response (search_assets q1 l1) = response (search_assets q2 l2) /\
  search_total (response (search_assets q1 l1)) = Some (effective_limit l1) /\
  (0 <= effective_limit l1 <= 5)%Z.
Proof.
  intros H. rewrite !search_assets_response, !range_effective, H.
  split; [reflexivity|]. split.
  - simpl. rewrite PyFacts.len_map_range. f_equal. unfold effective_limit. lia.
  - unfold effective_limit. lia.
Qed.

Lemma search_depends_on_clamped_limit_witness :
  response (search_assets "logo" 10) = response (search_assets "icon" 5).
Proof.
  apply (search_depends_on_clamped_limit "logo" "icon" 10 5). reflexivity.
Defined.

(** X14: a larger limit only appends results: the results for a limit are
    an initial segment of the results for any larger limit. *)
Theorem search_results_monotone (q1 q2 : string) (l1 l2 : Z) :
  (l1 <= l2)%Z ->
  exists rs1 rs2,
    search_results (response (search_assets q1 l1)) = Some rs1 /\
    search_results (response (search_assets q2 l2)) = Some rs2 /\
    is_prefix_of rs1 rs2.
Proof.
  intros Hle. do 2 eexists. rewrite !search_assets_response.
  split; [reflexivity|]. split; [reflexivity|].
  unfold Py.range.
  exists (map search_result
            (map Z.of_nat
               (seq (Z.to_nat (Z.min l1 5))
                    (Z.to_nat (Z.min l2 5) - Z.to_nat (Z.min l1 5))))).
  rewrite <- !map_app, <- seq_app. do 3 f_equal. lia.
Qed.

Lemma search_results_monotone_witness :
  exists rs1 rs2,
    search_results (response (search_assets "logo" 2)) = Some rs1 /\
    search_results (response (search_assets "logo" 4)) = Some rs2 /\
    is_prefix_of rs1 rs2.
Proof. apply (search_results_monotone "logo" "logo" 2 4). lia. Defined.

Lemma search_results_cases (query : string) (limit : Z) :
  exists n,
    (n <= 5)%nat /\
    search_results (response (search_assets query limit))
    = Some (map search_result (map Z.of_nat (seq 0 n))).
Proof.
  exists (Z.to_nat (Z.min limit 5)). split; [lia|].
  now rewrite search_assets_response.
Qed.

(** X15: within one search response no two results share an id, a url or a
    title. *)
Theorem search_results_distinct (query : string) (limit : Z) :
  exists results,
    search_results (response (search_assets query limit)) = Some results /\
    NoDup (map (fun r => getitem r "id") results) /\
    NoDup (map (fun r => getitem r "url") results) /\
    NoDup (map (fun r => getitem r "title") results).
Proof.
  destruct (search_results_cases query limit) as [n [Hn ->]].
  eexists. split; [reflexivity|].
  destruct n as [|[|[|[|[|[|k]]]]]]; try lia;
    (split; [|split]); vm_compute;
    repeat (constructor; [simpl; intuition discriminate|]); constructor.
Qed.

(** X16: every relevance in a search response lies between 0.5 and 0.9, so
    within the [0, 1] range of a score. *)
Theorem search_relevance_bounds (query : string) (limit : Z) :
  exists results,
    search_results (response (search_assets query limit)) = Some results /\
    forall r, In r results ->
      exists f, result_relevance r = Some f /\
                PrimFloat.leb 0.5 f = true /\ PrimFloat.leb f 0.9 = true /\
                PrimFloat.leb 0 f = true /\ PrimFloat.leb f 1 = true.
Proof.
  destruct (search_results_cases query limit) as [n [Hn ->]].
  eexists. split; [reflexivity|].
  intros r Hr.
  destruct n as [|[|[|[|[|[|k]]]]]]; try lia; simpl in Hr;
    repeat (destruct Hr as [<-|Hr];
            [eexists; split; [reflexivity|]; vm_compute; repeat split|]);
    destruct Hr.
Qed.

Lemma search_relevance_bounds_witness :
  exists f,
    result_relevance (search_result 4) = Some f /\
    PrimFloat.leb 0.5 f = true /\ PrimFloat.leb f 0.9 = true.
Proof.
  destruct (search_relevance_bounds "logo" 5) as [results [H1 H2]].
  injection H1 as <-.
  destruct (H2 (search_result 4)) as [f [Hf [Hlo [Hhi _]]]].
  - simpl. tauto.
  - exists f. repeat split; assumption.
Defined.

(** ** Layout *)

(** X17: the layout response is determined by the prompt, the width and the
    height, and determines them: [style] never matters, and two requests get
    the same response exactly when they agree on those three fields. *)
Theorem layout_response_iff (r1 r2 : GenerateLayoutRequest.t) :
  response (generate_layout r1) = response (generate_layout r2) <->
  GenerateLayoutRequest.prompt r1 = GenerateLayoutRequest.prompt r2 /\
  GenerateLayoutRequest.width r1 = GenerateLayoutRequest.width r2 /\
  GenerateLayoutRequest.height r1 = GenerateLayoutRequest.height r2.
Proof.
  destruct r1 as [p1 w1 h1 s1], r2 as [p2 w2 h2 s2].
  unfold generate_layout, response, try_except, bind. simpl. split.
  - intros H. injection H as Hw Hh Hp. repeat split; assumption.
  - intros [-> [-> ->]]. reflexivity.
Qed.

Lemma layout_response_iff_witness :
  response (generate_layout
              {| GenerateLayoutRequest.prompt := "a poster";
                 GenerateLayoutRequest.width := 800;
                 GenerateLayoutRequest.height := 600;
                 GenerateLayoutRequest.style := Some "modern" |})
  = response (generate_layout
                {| GenerateLayoutRequest.prompt := "a poster";
                   GenerateLayoutRequest.width := 800;
                   GenerateLayoutRequest.height := 600;
                   GenerateLayoutRequest.style := None |}).
Proof.
  apply (layout_response_iff
           {| GenerateLayoutRequest.prompt := "a poster";
              GenerateLayoutRequest.width := 800;
              GenerateLayoutRequest.height := 600;
              GenerateLayoutRequest.style := Some "modern" |}
           {| GenerateLayoutRequest.prompt := "a poster";
              GenerateLayoutRequest.width := 800;
              GenerateLayoutRequest.height := 600;
              GenerateLayoutRequest.style := None |}).
  repeat split.
Defined.
